(** * WHMCS -> FreeAgent sync dashboard: the three views and their handlers

    A shallow embedding of the React components of the dashboard
    (Dashboard, Settings, Logs).  A component is a record of its [useState]
    cells; an [async] handler is a computation in a small state-and-exception
    monad over the component state, the list of HTTP requests issued so far
    and the console; [render] is a function from the state to the part of
    the page the handlers and controls are about. *)

From Stdlib Require Import Ascii String List ZArith Bool Lia.
Import ListNotations.
Local Open Scope string_scope.
Set Warnings "-register-all,-notation-for-abbreviation".

(** ** JavaScript values

    Response bodies are parsed JSON documents.  The components test them with
    [||], [!], [?.] and [if (...)], so truthiness is part of the model. *)

Inductive value : Type :=
| VUndefined
| VNull
| VBool (b : bool)
| VNum (n : Z)
| VStr (s : string)
| VArr (items : list value)
| VObj (props : list (string * value)).

(** [ToBoolean]: [undefined], [null], [false], [0] and [""] are falsy. *)
Definition truthy (v : value) : bool :=
  match v with
  | VUndefined | VNull => false
  | VBool b => b
  | VNum n => negb (n =? 0)%Z
  | VStr s => negb (s =? "")
  | VArr _ | VObj _ => true
  end.

(** [a || b] *)
Definition js_or (a b : value) : value := if truthy a then a else b.

(** [!a] *)
Definition js_not (a : value) : bool := negb (truthy a).

Definition nullish (v : value) : bool :=
  match v with
  | VUndefined | VNull => true
  | _ => false
  end.

Fixpoint lookup (k : string) (props : list (string * value)) : value :=
  match props with
  | [] => VUndefined
  | (k', v) :: rest => if k' =? k then v else lookup k rest
  end.

(** [v?.k], and [v.k] on a [v] that is not nullish.  The property names the
    components read ([result], [message], [detail], [is_running], ...) are
    own properties of objects only: on a string, number, boolean or array
    they are [undefined]. *)
Definition opt_prop (v : value) (k : string) : value :=
  match v with
  | VObj props => lookup k props
  | _ => VUndefined
  end.

(** ** Data model *)

Record Credentials := {
  whmcs_url : value;
  whmcs_identifier : value;
  whmcs_secret : value;
  freeagent_client_id : value;
  freeagent_client_secret : value
}.

Record SyncLogEntry := {
  id : string;
  sync_type : string;
  status : string;
  timestamp : string;
  message : string;
  invoices_processed : Z;
  invoices_created : Z;
  clients_created : Z;
  payments_synced : Z;
  errors : option (list string)
}.

Record Alert := { alert_type : string; alert_message : value }.

(** ** HTTP and exceptions *)

Inductive request :=
| GET (url : string)
| POST (url : string) (body : option Credentials).

Record response (D : Type) := { data : D }.
Arguments data {D} _.

(** What a [catch] clause can receive: the rejection of an axios call (with
    the response of the server when there was one) or a [TypeError] raised by
    reading a property of [undefined] or [null]. *)
Inductive error :=
| AxiosError (resp : option (response value))
| TypeError (msg : string).

(** A settled promise of an axios call.  A request that never answers has
    no place here, and the code sets no timeout: what is said below of a
    handler is said of the ways its requests can settle. *)
Inductive promise (D : Type) :=
| Resolved (r : response D)
| Rejected (e : error).
Arguments Resolved {D} _.
Arguments Rejected {D} _.

(** [Promise.all([p, q])]: resolves with both responses, rejects as soon as
    one of the two rejects (with [p]'s error here when both do). *)
Definition promise_all {D E : Type} (p : promise D) (q : promise E)
  : promise (D * E) :=
  match p, q with
  | Resolved a, Resolved b => Resolved {| data := (data a, data b) |}
  | Rejected e, _ => Rejected e
  | _, Rejected e => Rejected e
  end.

Definition is_rejected {D : Type} (p : promise D) : bool :=
  match p with
  | Resolved _ => false
  | Rejected _ => true
  end.

(** [error.response?.data?.detail] *)
Definition error_detail (e : error) : value :=
  match e with
  | AxiosError (Some r) => opt_prop (data r) "detail"
  | AxiosError None => VUndefined
  | TypeError _ => VUndefined
  end.

Inductive result (A : Type) :=
| Ok (a : A)
| Throw (e : error).
Arguments Ok {A} _.
Arguments Throw {A} _.

(** ** The handler monad *)

Section Runtime.
Context {S : Type}.

Record world := World {
  view : S;                          (* the component's useState cells *)
  network : list request;            (* requests issued, oldest first *)
  console : list (string * error)    (* console.error calls, oldest first *)
}.

Definition M (A : Type) : Type := world -> result A * world.

Definition ret {A} (a : A) : M A := fun w => (Ok a, w).

Definition bind {A B} (m : M A) (k : A -> M B) : M B :=
  fun w =>
    match m w with
    | (Ok a, w') => k a w'
    | (Throw e, w') => (Throw e, w')
    end.

Definition throw {A} (e : error) : M A := fun w => (Throw e, w).

(** [try { m } catch (error) { h error }] *)
Definition try_catch {A} (m : M A) (h : error -> M A) : M A :=
  fun w =>
    match m w with
    | (Ok a, w') => (Ok a, w')
    | (Throw e, w') => h e w'
    end.

(** [try { m } finally { f }]: [f] runs on both exits, and the exception of
    [m], if any, goes on after it. *)
Definition try_finally {A} (m : M A) (f : M unit) : M A :=
  fun w =>
    match m w with
    | (r, w') =>
        match f w' with
        | (Ok _, w'') => (r, w'')
        | (Throw e, w'') => (Throw e, w'')
        end
    end.

(** A [useState] setter. *)
Definition modify (f : S -> S) : M unit :=
  fun w => (Ok tt, {| view := f (view w); network := network w;
                      console := console w |}).

Definition console_error (msg : string) (e : error) : M unit :=
  fun w => (Ok tt, {| view := view w; network := network w;
                      console := console w ++ [(msg, e)] |}).

(** [axios.get(url)] / [axios.post(url, body)]: the request goes out and a
    promise comes back.  The server is an oracle from the requests issued
    before and the present one to the way the promise settles. *)
Definition axios {D} (server : list request -> request -> promise D)
    (r : request) : M (promise D) :=
  fun w => (Ok (server (network w) r),
            {| view := view w; network := network w ++ [r];
               console := console w |}).

(** [await p] *)
Definition await {D} (p : promise D) : M (response D) :=
  match p with
  | Resolved r => ret r
  | Rejected e => throw e
  end.

(** [v.k]: a [TypeError] when [v] is [undefined] or [null]. *)
Definition prop (v : value) (k : string) : M value :=
  if nullish v
  then throw (TypeError ("Cannot read properties of nullish: " ++ k))
  else ret (opt_prop v k).

(** A handler reads the state cells through the closure of the render in
    which it was created. *)
Definition gets {A} (f : S -> A) : M A := fun w => (Ok (f (view w)), w).

Definition exec {A} (m : M A) (w : world) : world := snd (m w).
End Runtime.

Arguments world : clear implicits.
Arguments M : clear implicits.

Declare Scope js_scope.
Delimit Scope js_scope with js.
Notation "x <- m ;; k" := (bind m (fun x => k))
  (at level 100, m at next level, right associativity) : js_scope.
Notation "m ;; k" := (bind m (fun _ => k))
  (at level 100, right associativity) : js_scope.
Notation "'try' m 'catch' e '=>' h" := (try_catch m (fun e => h))
  (at level 100, e name, m at level 200, h at level 200) : js_scope.
Notation "'try' m 'catch' e '=>' h 'finally' f" :=
  (try_finally (try_catch m (fun e => h)) f)
  (at level 100, e name, m at level 200, h at level 200, f at level 200)
  : js_scope.
Local Open Scope js_scope.

(** [getStatusClass], the same in Dashboard and Logs. *)
Definition getStatusClass (status : string) : string :=
  if status =? "success" then "status-success"
  else if status =? "error" then "status-error"
  else if status =? "running" then "status-running"
  else "status-warning".

(** * Dashboard *)

Module Dashboard.

Record state := {
  syncStatus : value;
  recentLogs : list SyncLogEntry;
  syncing : bool;
  alert : option Alert;
  loading : bool
}.

Definition initial : state :=
  {| syncStatus := VNull; recentLogs := []; syncing := false;
     alert := None; loading := true |}.

Definition setSyncStatus (v : value) : M state unit :=
  modify (fun s => {| syncStatus := v; recentLogs := recentLogs s;
                      syncing := syncing s; alert := alert s;
                      loading := loading s |}).
Definition setRecentLogs (l : list SyncLogEntry) : M state unit :=
  modify (fun s => {| syncStatus := syncStatus s; recentLogs := l;
                      syncing := syncing s; alert := alert s;
                      loading := loading s |}).
Definition setSyncing (b : bool) : M state unit :=
  modify (fun s => {| syncStatus := syncStatus s; recentLogs := recentLogs s;
                      syncing := b; alert := alert s;
                      loading := loading s |}).
Definition setAlert (a : option Alert) : M state unit :=
  modify (fun s => {| syncStatus := syncStatus s; recentLogs := recentLogs s;
                      syncing := syncing s; alert := a;
                      loading := loading s |}).
Definition setLoading (b : bool) : M state unit :=
  modify (fun s => {| syncStatus := syncStatus s; recentLogs := recentLogs s;
                      syncing := syncing s; alert := alert s;
                      loading := b |}).

Section Component.
Variable BACKEND_URL : string.
(** The server: JSON documents on every route but [/sync/logs], which
    answers with a sequence of log entries. *)
Variable server : list request -> request -> promise value.
Variable logs_server :
  list request -> request -> promise (list SyncLogEntry).
(** [new Date(x).toLocaleString()], which depends on the locale. *)
Variable toLocaleString : value -> string.

Definition API : string := BACKEND_URL ++ "/api".

Definition status_request : request := GET (API ++ "/sync/status").
Definition logs_request : request := GET (API ++ "/sync/logs?limit=5").
Definition manual_request : request := POST (API ++ "/sync/manual") None.

Definition fetchData : M state unit :=
  try
    statusP <- axios server status_request ;;
    logsP <- axios logs_server logs_request ;;
    both <- await (promise_all statusP logsP) ;;
    setSyncStatus (fst (data both)) ;;
    setRecentLogs (snd (data both)) ;;
    setLoading false
  catch error =>
    console_error "Error fetching data:" error ;;
    setLoading false.

Definition handleManualSync : M state unit :=
  try
    setSyncing true ;;
    setAlert None ;;
    postP <- axios server manual_request ;;
    response <- await postP ;;
    result <- prop (data response) "result" ;;
    message <- prop result "message" ;;
    setAlert (Some {| alert_type := "success";
                      alert_message :=
                        js_or message
                              (VStr "Sync completed successfully!") |}) ;;
    (* Refresh data *)
    fetchData
  catch error =>
    console_error "Sync error:" error ;;
    setAlert (Some {| alert_type := "error";
                      alert_message :=
                        js_or (error_detail error)
                              (VStr "Sync failed. Please check your settings and try again.") |})
  finally (setSyncing false).

Definition formatDate (dateString : value) : string :=
  if js_not dateString then "Never" else toLocaleString dateString.

(** *** What the component renders *)

Record log_row := {
  row_key : string;
  row_type : string;
  row_badge_class : string;
  row_badge : string;
  row_time : string;
  row_message : string;
  row_stats : option (list (Z * string))
}.

Definition render_log (log : SyncLogEntry) : log_row :=
  {| row_key := id log;
     row_type := sync_type log;
     row_badge_class := getStatusClass (status log);
     row_badge := status log;
     row_time := formatDate (VStr (timestamp log));
     row_message := message log;
     row_stats :=
       if status log =? "success"
       then Some ([(invoices_processed log, "processed");
                   (invoices_created log, "created");
                   (clients_created log, "new clients")]
                  ++ (if (payments_synced log >? 0)%Z
                      then [(payments_synced log, "payments synced")]
                      else []))%list
       else None |}.

Inductive log_list :=
| EmptyState (title : string)
| LogRows (rows : list log_row).

Record loaded_page := {
  banner : option Alert;
  last_sync : string;
  last_sync_badge : value;
  next_sync : value;
  running_badge : string;
  manual_sync_disabled : bool;
  manual_sync_label : string;
  recent : log_list
}.

Inductive page :=
| LoadingPage
| LoadedPage (p : loaded_page).

(** [syncing || syncStatus?.is_running], as the [disabled] attribute and
    the label of the button take it. *)
Definition busy (s : state) : bool :=
  truthy (js_or (VBool (syncing s)) (opt_prop (syncStatus s) "is_running")).

Definition render (s : state) : page :=
  if loading s then LoadingPage
  else LoadedPage
    {| banner := alert s;
       last_sync := formatDate (opt_prop (syncStatus s) "last_sync");
       last_sync_badge :=
         js_or (opt_prop (syncStatus s) "last_sync_status") (VStr "Never");
       next_sync :=
         js_or (opt_prop (syncStatus s) "next_sync") (VStr "Not scheduled");
       running_badge :=
         if truthy (opt_prop (syncStatus s) "is_running")
         then "Running" else "Ready";
       manual_sync_disabled := busy s;
       manual_sync_label :=
         if busy s then "Syncing..." else "Start Manual Sync";
       recent :=
         if (length (recentLogs s) =? 0)%nat
         then EmptyState "No sync logs yet"
         else LogRows (map render_log (recentLogs s)) |}.

(** The manual-sync button is on the page and can be clicked. *)
Definition manual_sync_enabled (s : state) : bool :=
  match render s with
  | LoadingPage => false
  | LoadedPage p => negb (manual_sync_disabled p)
  end.

(** A click on the manual-sync button: [onClick] runs only on a button
    that is rendered and not disabled. *)
Definition click_manual_sync : M state unit :=
  fun w => if manual_sync_enabled (view w) then handleManualSync w
           else (Ok tt, w).

(** The text of the banner on the page, and its kind. *)
Definition shown_banner (s : state) : option Alert :=
  match render s with
  | LoadingPage => None
  | LoadedPage p => banner p
  end.
End Component.
End Dashboard.

(** * Settings *)

Module Settings.

Record state := {
  credentials : Credentials;
  loading : bool;
  saving : bool;
  connecting : bool;
  disconnecting : bool;
  isConnected : value;
  alert : option Alert;
  (* the browser: the address bar (path and query) and the page the
     window was sent to, if any *)
  address : string;
  href : option value
}.

Definition blank : Credentials :=
  {| whmcs_url := VStr ""; whmcs_identifier := VStr "";
     whmcs_secret := VStr ""; freeagent_client_id := VStr "";
     freeagent_client_secret := VStr "" |}.

(** The component as it is mounted at [addr]. *)
Definition initial (addr : string) : state :=
  {| credentials := blank; loading := true; saving := false;
     connecting := false; disconnecting := false;
     isConnected := VBool false; alert := None;
     address := addr; href := None |}.

Definition setCredentials (f : Credentials -> Credentials) : M state unit :=
  modify (fun s =>
    {| credentials := f (credentials s); loading := loading s;
       saving := saving s; connecting := connecting s;
       disconnecting := disconnecting s; isConnected := isConnected s;
       alert := alert s; address := address s; href := href s |}).
Definition setLoading (b : bool) : M state unit :=
  modify (fun s =>
    {| credentials := credentials s; loading := b;
       saving := saving s; connecting := connecting s;
       disconnecting := disconnecting s; isConnected := isConnected s;
       alert := alert s; address := address s; href := href s |}).
Definition setSaving (b : bool) : M state unit :=
  modify (fun s =>
    {| credentials := credentials s; loading := loading s;
       saving := b; connecting := connecting s;
       disconnecting := disconnecting s; isConnected := isConnected s;
       alert := alert s; address := address s; href := href s |}).
Definition setConnecting (b : bool) : M state unit :=
  modify (fun s =>
    {| credentials := credentials s; loading := loading s;
       saving := saving s; connecting := b;
       disconnecting := disconnecting s; isConnected := isConnected s;
       alert := alert s; address := address s; href := href s |}).
Definition setDisconnecting (b : bool) : M state unit :=
  modify (fun s =>
    {| credentials := credentials s; loading := loading s;
       saving := saving s; connecting := connecting s;
       disconnecting := b; isConnected := isConnected s;
       alert := alert s; address := address s; href := href s |}).
Definition setIsConnected (v : value) : M state unit :=
  modify (fun s =>
    {| credentials := credentials s; loading := loading s;
       saving := saving s; connecting := connecting s;
       disconnecting := disconnecting s; isConnected := v;
       alert := alert s; address := address s; href := href s |}).
Definition setAlert (a : option Alert) : M state unit :=
  modify (fun s =>
    {| credentials := credentials s; loading := loading s;
       saving := saving s; connecting := connecting s;
       disconnecting := disconnecting s; isConnected := isConnected s;
       alert := a; address := address s; href := href s |}).
(** [window.history.replaceState({}, '', url)] *)
Definition replaceState (url : string) : M state unit :=
  modify (fun s =>
    {| credentials := credentials s; loading := loading s;
       saving := saving s; connecting := connecting s;
       disconnecting := disconnecting s; isConnected := isConnected s;
       alert := alert s; address := url; href := href s |}).
(** [window.location.href = url] *)
Definition set_location_href (url : value) : M state unit :=
  modify (fun s =>
    {| credentials := credentials s; loading := loading s;
       saving := saving s; connecting := connecting s;
       disconnecting := disconnecting s; isConnected := isConnected s;
       alert := alert s; address := address s; href := Some url |}).

(** The query parameters of the current navigation, decoded, in the order
    of the address; [searchParams.get(name)] is the first value of [name],
    or [null]. *)
Definition URLSearchParams := list (string * string).

Fixpoint searchParams_get (sp : URLSearchParams) (name : string)
  : option string :=
  match sp with
  | [] => None
  | (k, v) :: rest => if k =? name then Some v else searchParams_get rest name
  end.

(** [o === s] for [o] a string or [null]. *)
Definition strict_eq (o : option string) (s : string) : bool :=
  match o with
  | Some x => x =? s
  | None => false
  end.
Infix "===" := strict_eq (at level 70, no associativity).

Definition of_nullable (o : option string) : value :=
  match o with
  | Some s => VStr s
  | None => VNull
  end.

(** The names of the inputs of the form. *)
Inductive field :=
| f_whmcs_url | f_whmcs_identifier | f_whmcs_secret
| f_freeagent_client_id | f_freeagent_client_secret.

(** [{...prev, [name]: value}] *)
Definition with_field (name : field) (v : value) (prev : Credentials)
  : Credentials :=
  match name with
  | f_whmcs_url =>
      {| whmcs_url := v; whmcs_identifier := whmcs_identifier prev;
         whmcs_secret := whmcs_secret prev;
         freeagent_client_id := freeagent_client_id prev;
         freeagent_client_secret := freeagent_client_secret prev |}
  | f_whmcs_identifier =>
      {| whmcs_url := whmcs_url prev; whmcs_identifier := v;
         whmcs_secret := whmcs_secret prev;
         freeagent_client_id := freeagent_client_id prev;
         freeagent_client_secret := freeagent_client_secret prev |}
  | f_whmcs_secret =>
      {| whmcs_url := whmcs_url prev;
         whmcs_identifier := whmcs_identifier prev; whmcs_secret := v;
         freeagent_client_id := freeagent_client_id prev;
         freeagent_client_secret := freeagent_client_secret prev |}
  | f_freeagent_client_id =>
      {| whmcs_url := whmcs_url prev;
         whmcs_identifier := whmcs_identifier prev;
         whmcs_secret := whmcs_secret prev; freeagent_client_id := v;
         freeagent_client_secret := freeagent_client_secret prev |}
  | f_freeagent_client_secret =>
      {| whmcs_url := whmcs_url prev;
         whmcs_identifier := whmcs_identifier prev;
         whmcs_secret := whmcs_secret prev;
         freeagent_client_id := freeagent_client_id prev;
         freeagent_client_secret := v |}
  end.

Definition handleChange (name : field) (v : string) : M state unit :=
  setCredentials (with_field name (VStr v)).

Section Component.
Variable BACKEND_URL : string.
Variable server : list request -> request -> promise value.

Definition API : string := BACKEND_URL ++ "/api".

Definition credentials_request : request :=
  GET (API ++ "/settings/credentials").
Definition authorize_request : request :=
  GET (API ++ "/oauth/freeagent/authorize").

Definition fetchCredentials : M state unit :=
  try
    p <- axios server credentials_request ;;
    response <- await p ;;
    (if truthy (data response) then
       setCredentials (fun _ =>
         {| whmcs_url :=
              js_or (opt_prop (data response) "whmcs_url") (VStr "");
            whmcs_identifier := VStr "";
            whmcs_secret := VStr "";
            freeagent_client_id :=
              js_or (opt_prop (data response) "freeagent_client_id")
                    (VStr "");
            freeagent_client_secret := VStr "" |}) ;;
       setIsConnected
         (js_or (opt_prop (data response) "is_connected") (VBool false))
     else ret tt) ;;
    setLoading false
  catch error =>
    console_error "Error fetching credentials:" error ;;
    setLoading false.

(** [fetchCredentials] cut at its [await]: the call up to there, which
    sends the request, and the rest of the body, which runs when the
    promise [p] of the request has settled. *)
Definition fetchCredentials_start : M state (promise value) :=
  axios server credentials_request.

Definition fetchCredentials_resume (p : promise value) : M state unit :=
  try
    response <- await p ;;
    (if truthy (data response) then
       setCredentials (fun _ =>
         {| whmcs_url :=
              js_or (opt_prop (data response) "whmcs_url") (VStr "");
            whmcs_identifier := VStr "";
            whmcs_secret := VStr "";
            freeagent_client_id :=
              js_or (opt_prop (data response) "freeagent_client_id")
                    (VStr "");
            freeagent_client_secret := VStr "" |}) ;;
       setIsConnected
         (js_or (opt_prop (data response) "is_connected") (VBool false))
     else ret tt) ;;
    setLoading false
  catch error =>
    console_error "Error fetching credentials:" error ;;
    setLoading false.

(** The rest of the effect: the check for the OAuth callback. *)
Definition oauth_callback (searchParams : URLSearchParams)
  : M state unit :=
  let oauthStatus := searchParams_get searchParams "oauth" in
  if oauthStatus === "success" then
    setAlert (Some {| alert_type := "success";
                      alert_message :=
                        VStr "Successfully connected to FreeAgent!" |}) ;;
    (* Remove query params *)
    replaceState "/settings"
  else if oauthStatus === "error" then
    let errorMsg :=
      js_or (of_nullable (searchParams_get searchParams "message"))
            (VStr "Failed to connect to FreeAgent") in
    setAlert (Some {| alert_type := "error";
                      alert_message := errorMsg |}) ;;
    (* Remove query params *)
    replaceState "/settings"
  else ret tt.

(** The effect of the component.  [fetchCredentials()] is not awaited:
    it runs up to its [await] (the request goes out), the effect goes on
    to its end, and the call goes on when the response is there. *)
Definition useEffect (searchParams : URLSearchParams) : M state unit :=
  p <- fetchCredentials_start ;;
  oauth_callback searchParams ;;
  fetchCredentials_resume p.

Definition handleSubmit : M state unit :=
  credentials <- gets credentials ;;
  try
    setSaving true ;;
    setAlert None ;;
    p <- axios server
           (POST (API ++ "/settings/credentials") (Some credentials)) ;;
    _ <- await p ;;
    setAlert (Some {| alert_type := "success";
                      alert_message :=
                        VStr "Credentials saved successfully!" |}) ;;
    (* Refresh to get connection status *)
    fetchCredentials
  catch error =>
    console_error "Error saving credentials:" error ;;
    setAlert (Some {| alert_type := "error";
                      alert_message :=
                        js_or (error_detail error)
                              (VStr "Failed to save credentials") |})
  finally (setSaving false).

Definition handleConnectFreeAgent : M state unit :=
  try
    setConnecting true ;;
    setAlert None ;;
    p <- axios server authorize_request ;;
    response <- await p ;;
    (* Redirect to FreeAgent authorization page *)
    url <- prop (data response) "authorization_url" ;;
    set_location_href url
  catch error =>
    console_error "Error connecting to FreeAgent:" error ;;
    setAlert (Some {| alert_type := "error";
                      alert_message :=
                        js_or (error_detail error)
                              (VStr "Failed to initiate FreeAgent connection") |}) ;;
    setConnecting false.

(** [confirmed] is the answer to [window.confirm]. *)
Definition handleDisconnectFreeAgent (confirmed : bool) : M state unit :=
  if negb confirmed then ret tt
  else
    try
      setDisconnecting true ;;
      setAlert None ;;
      p <- axios server (POST (API ++ "/oauth/freeagent/disconnect") None) ;;
      _ <- await p ;;
      setAlert (Some {| alert_type := "success";
                        alert_message :=
                          VStr "Disconnected from FreeAgent successfully" |}) ;;
      setIsConnected (VBool false)
    catch error =>
      console_error "Error disconnecting:" error ;;
      setAlert (Some {| alert_type := "error";
                        alert_message :=
                          js_or (error_detail error)
                                (VStr "Failed to disconnect") |})
    finally (setDisconnecting false).
End Component.

(** *** What the component renders *)

Inductive connection_panel :=
| Connected (disconnect_disabled : bool) (label : string)
| NotConnected (connect_disabled : bool) (label : string).

Record loaded_page := {
  banner : option Alert;
  inputs : Credentials;
  save_disabled : bool;
  save_label : string;
  connection : connection_panel
}.

Inductive page :=
| LoadingPage
| LoadedPage (p : loaded_page).

Definition render (s : state) : page :=
  if loading s then LoadingPage
  else LoadedPage
    {| banner := alert s;
       inputs := credentials s;
       save_disabled := saving s;
       save_label := if saving s then "Saving..." else "Save Credentials";
       connection :=
         if truthy (isConnected s)
         then Connected (disconnecting s)
                (if disconnecting s then "Disconnecting..."
                 else "Disconnect from FreeAgent")
         else NotConnected
                (connecting s
                 || js_not (freeagent_client_id (credentials s)))
                (if connecting s then "Connecting..."
                 else "Connect to FreeAgent") |}.

Definition shown_banner (s : state) : option Alert :=
  match render s with
  | LoadingPage => None
  | LoadedPage p => banner p
  end.

(** The "Connect to FreeAgent" button is on the page and can be clicked. *)
Definition connect_enabled (s : state) : bool :=
  match render s with
  | LoadedPage {| connection := NotConnected disabled _ |} => negb disabled
  | _ => false
  end.

(** A click on it: [onClick] runs only on a button that is rendered and
    not disabled. *)
Definition click_connect (BACKEND_URL : string)
    (server : list request -> request -> promise value) : M state unit :=
  fun w => if connect_enabled (view w)
           then handleConnectFreeAgent BACKEND_URL server w
           else (Ok tt, w).

(** *** The address bar

    The component reads the query parameters through [useSearchParams]:
    they reach it decoded by the browser, so a visit is given by the
    address and by the decoded parameters of its query.  Of the browser's
    parse only this much is modelled: the query of an address lies between
    its first [?] and its fragment, which starts at the first [#], and an
    address without a query, or with an empty one, has no parameters. *)
Fixpoint before_fragment (addr : string) : string :=
  match addr with
  | EmptyString => EmptyString
  | String c rest =>
      if Ascii.eqb c "#"%char then EmptyString
      else String c (before_fragment rest)
  end.

Fixpoint after_question_mark (path : string) : option string :=
  match path with
  | EmptyString => None
  | String c rest =>
      if Ascii.eqb c "?"%char then Some rest else after_question_mark rest
  end.

Definition query_of (addr : string) : option string :=
  after_question_mark (before_fragment addr).

(** [parameters_of addr sp]: [sp] are the decoded parameters of [addr]. *)
Inductive parameters_of : string -> URLSearchParams -> Prop :=
| no_query (addr : string) :
    query_of addr = None -> parameters_of addr []
| empty_query (addr : string) :
    query_of addr = Some "" -> parameters_of addr [].

(** The component mounted at [addr], the server having seen [history]. *)
Definition mount (addr : string) (history : list request)
  : world state :=
  {| view := initial addr; network := history; console := [] |}.

(** A visit of [addr], whose decoded parameters are [searchParams]: the
    component is mounted and its effect runs, up to the arrival of the
    response to the credentials request. *)
Definition visit (BACKEND_URL : string)
    (server : list request -> request -> promise value)
    (addr : string) (searchParams : URLSearchParams)
    (history : list request) : world state :=
  exec (useEffect BACKEND_URL server searchParams) (mount addr history).

(** A refresh of the page: a visit of the address now in the bar, whose
    decoded parameters are [searchParams]. *)
Definition refresh (BACKEND_URL : string)
    (server : list request -> request -> promise value)
    (searchParams : URLSearchParams) (w : world state) : world state :=
  visit BACKEND_URL server (address (view w)) searchParams (network w).

(** [text] contains [part]. *)
Definition contains (text part : string) : Prop :=
  exists before after, text = before ++ part ++ after.
End Settings.

(** * Logs *)

Module Logs.

Record state := {
  logs : list SyncLogEntry;
  loading : bool
}.

Definition initial : state := {| logs := []; loading := true |}.

Definition setLogs (l : list SyncLogEntry) : M state unit :=
  modify (fun s => {| logs := l; loading := loading s |}).
Definition setLoading (b : bool) : M state unit :=
  modify (fun s => {| logs := logs s; loading := b |}).

Section Component.
Variable BACKEND_URL : string.
Variable logs_server :
  list request -> request -> promise (list SyncLogEntry).
Variable toLocaleString : value -> string.

Definition API : string := BACKEND_URL ++ "/api".

Definition logs_request : request := GET (API ++ "/sync/logs?limit=100").

Definition fetchLogs : M state unit :=
  try
    p <- axios logs_server logs_request ;;
    response <- await p ;;
    setLogs (data response) ;;
    setLoading false
  catch error =>
    console_error "Error fetching logs:" error ;;
    setLoading false.

Definition formatDate (dateString : string) : string :=
  toLocaleString (VStr dateString).

Record log_row := {
  row_key : string;
  row_type : string;
  row_badge_class : string;
  row_badge : string;
  row_time : string;
  row_message : string;
  row_stats : option (list (Z * string));
  row_errors : option (list (nat * string))   (* <li key={idx}> *)
}.

Definition render_log (log : SyncLogEntry) : log_row :=
  {| row_key := id log;
     row_type := sync_type log ++ " SYNC";
     row_badge_class := getStatusClass (status log);
     row_badge := status log;
     row_time := formatDate (timestamp log);
     row_message := message log;
     row_stats :=
       if status log =? "success"
       then Some [(invoices_processed log, "processed");
                  (invoices_created log, "created");
                  (clients_created log, "new clients")]
       else None;
     row_errors :=
       match errors log with
       | Some errs =>
           if (0 <? length errs)%nat
           then Some (combine (seq 0 (length errs)) errs)
           else None
       | None => None
       end |}.

Inductive log_list :=
| EmptyState (title : string)
| LogRows (rows : list log_row).

Inductive page :=
| LoadingPage
| LoadedPage (l : log_list).

Definition render (s : state) : page :=
  if loading s then LoadingPage
  else LoadedPage
         (if (length (logs s) =? 0)%nat
          then EmptyState "No sync logs yet"
          else LogRows (map render_log (logs s))).
End Component.
End Logs.

(** * Concrete servers and states

    The scenarios on which the statements below are run. *)

Module Scenario.

Definition backend_url : string := "http://localhost:8001".

Definition idle_status : value :=
  VObj [("last_sync", VNull); ("last_sync_status", VNull);
        ("next_sync", VStr "Every 30 minutes"); ("is_running", VBool false)].

Definition running_status : value :=
  VObj [("last_sync", VNull); ("last_sync_status", VStr "running");
        ("next_sync", VStr "Every 30 minutes"); ("is_running", VBool true)].

(** A server on which a manual sync succeeds with the message [msg]. *)
Definition sync_succeeds (msg : string)
  : list request -> request -> promise value :=
  fun _ r =>
    match r with
    | POST _ _ =>
        Resolved {| data := VObj [("result", VObj [("message", VStr msg)])] |}
    | GET _ => Resolved {| data := idle_status |}
    end.

(** A server on which a manual sync is answered by an error whose body
    carries [detail]. *)
Definition sync_fails (detail : string)
  : list request -> request -> promise value :=
  fun _ r =>
    match r with
    | POST _ _ =>
        Rejected (AxiosError
                    (Some {| data := VObj [("detail", VStr detail)] |}))
    | GET _ => Resolved {| data := idle_status |}
    end.

(** A server that is down for the status route. *)
Definition status_down : list request -> request -> promise value :=
  fun _ _ => Rejected (AxiosError None).

Definition a_log : SyncLogEntry :=
  {| id := "log-1"; sync_type := "manual"; status := "success";
     timestamp := "2024-05-01T10:00:00Z"; message := "Synced 2 invoices";
     invoices_processed := 2; invoices_created := 2; clients_created := 1;
     payments_synced := 0; errors := Some [] |}.

Definition another_log : SyncLogEntry :=
  {| id := "log-0"; sync_type := "scheduled"; status := "error";
     timestamp := "2024-05-01T09:30:00Z"; message := "WHMCS unreachable";
     invoices_processed := 0; invoices_created := 0; clients_created := 0;
     payments_synced := 0; errors := Some ["timeout"; "gave up"] |}.

Definition logs_are (l : list SyncLogEntry)
  : list request -> request -> promise (list SyncLogEntry) :=
  fun _ _ => Resolved {| data := l |}.

Definition show_date (v : value) : string :=
  match v with
  | VStr s => s
  | _ => "Invalid Date"
  end.

(** The Dashboard after its first fetch cycle, with one log on display. *)
Definition dashboard_loaded : world Dashboard.state :=
  {| view := {| Dashboard.syncStatus := idle_status;
                Dashboard.recentLogs := [a_log];
                Dashboard.syncing := false;
                Dashboard.alert := None;
                Dashboard.loading := false |};
     network := []; console := [] |}.

(** A server with no credentials on record: the credentials route answers
    with an empty ([null]) body, and saving succeeds. *)
Definition nothing_stored : list request -> request -> promise value :=
  fun _ _ => Resolved {| data := VNull |}.

(** A server that echoes stored credentials, secrets included. *)
Definition leaky : list request -> request -> promise value :=
  fun _ _ =>
    Resolved {| data := VObj [("whmcs_url", VStr "https://billing.example.com");
                              ("whmcs_identifier", VStr "id-123");
                              ("whmcs_secret", VStr "s3cret");
                              ("freeagent_client_id", VStr "1KPjokVRmomFNRVgQgqgEw");
                              ("freeagent_client_secret", VStr "wzFQffiI6AkmY3zf9bHhJA");
                              ("is_connected", VBool true)] |}.

Fixpoint run {S : Type} (handlers : list (M S unit)) (w : world S)
  : world S :=
  match handlers with
  | [] => w
  | h :: rest => run rest (exec h w)
  end.

(** A session on the Settings page: the page is opened and the form is
    filled in ... *)
Definition form_filled
    (server : list request -> request -> promise value)
  : world Settings.state :=
  run [Settings.handleChange Settings.f_whmcs_url "https://billing.example.com";
       Settings.handleChange Settings.f_whmcs_identifier "id-123";
       Settings.handleChange Settings.f_whmcs_secret "s3cret";
       Settings.handleChange Settings.f_freeagent_client_id "1KPjokVRmomFNRVgQgqgEw";
       Settings.handleChange Settings.f_freeagent_client_secret "wzFQffiI6AkmY3zf9bHhJA"]
      (Settings.visit backend_url server "/settings" [] []).

(** ... and submitted. *)
Definition settings_session
    (server : list request -> request -> promise value)
  : world Settings.state :=
  exec (Settings.handleSubmit backend_url server) (form_filled server).

(** The Logs page before its first fetch. *)
Definition logs_mounted : world Logs.state :=
  {| view := Logs.initial; network := []; console := [] |}.
End Scenario.

(** * Polling

    The Dashboard and the Logs view poll the server: their effect runs the
    fetch once, sets an interval on it and returns the cleanup that clears
    the interval.  The page holds the mounted component and the intervals
    that are set, as the browser does behind [setInterval] and
    [clearInterval]. *)

Module Timers.
Section Page.
Context {St : Type}.

Record timer := {
  handle : nat;
  delay : Z;                    (* milliseconds *)
  callback : M St unit
}.

Record page := {
  app : world St;
  timers : list timer;
  next_handle : nat
}.

(** The page when the component is about to be mounted. *)
Definition opened (w : world St) : page :=
  {| app := w; timers := []; next_handle := 1 |}.

(** [setInterval(cb, ms)]: a handle that is not in use comes back. *)
Definition setInterval (cb : M St unit) (ms : Z) (p : page) : nat * page :=
  (next_handle p,
   {| app := app p;
      timers := {| handle := next_handle p; delay := ms; callback := cb |}
                  :: timers p;
      next_handle := Datatypes.S (next_handle p) |}).

(** [clearInterval(h)] *)
Definition clearInterval (h : nat) (p : page) : page :=
  {| app := app p;
     timers := filter (fun t => negb (handle t =? h)%nat) (timers p);
     next_handle := next_handle p |}.

(** A handler of the component runs to its end. *)
Definition run (m : M St unit) (p : page) : page :=
  {| app := exec m (app p); timers := timers p;
     next_handle := next_handle p |}.

(** The delay of the interval [h] has passed once more: its callback runs,
    if the interval is still set. *)
Definition elapse (h : nat) (p : page) : page :=
  match find (fun t => (handle t =? h)%nat) (timers p) with
  | Some t => run (callback t) p
  | None => p
  end.

(** The handles in use are below the next one the browser hands out. *)
Definition fresh_handles (p : page) : Prop :=
  Forall (fun t => handle t < next_handle p) (timers p).
End Page.
Arguments timer : clear implicits.
Arguments page : clear implicits.
End Timers.

Module DashboardPolling.
Section Component.
Variable BACKEND_URL : string.
Variable server : list request -> request -> promise value.
Variable logs_server : list request -> request -> promise (list SyncLogEntry).

(** The effect of the Dashboard, with the cleanup it returns. *)
Definition useEffect (p : Timers.page Dashboard.state)
  : Timers.page Dashboard.state
    * (Timers.page Dashboard.state -> Timers.page Dashboard.state) :=
  let fetchData := Dashboard.fetchData BACKEND_URL server logs_server in
  let p1 := Timers.run fetchData p in
  let (interval, p2) := Timers.setInterval fetchData 10000 p1 in
  (* Refresh every 10 seconds *)
  (p2, fun q => Timers.clearInterval interval q).

(** A life of the component: mounted, on the page while the interval
    elapses [ticks] times, unmounted; [late] more delays pass after that. *)
Definition life (ticks late : nat) (p : Timers.page Dashboard.state)
  : Timers.page Dashboard.state :=
  let (mounted, cleanup) := useEffect p in
  let interval := Timers.next_handle p in
  Nat.iter late (Timers.elapse interval)
    (cleanup (Nat.iter ticks (Timers.elapse interval) mounted)).
End Component.
End DashboardPolling.

Module LogsPolling.
Section Component.
Variable BACKEND_URL : string.
Variable logs_server : list request -> request -> promise (list SyncLogEntry).

(** The effect of the Logs view, with the cleanup it returns. *)
Definition useEffect (p : Timers.page Logs.state)
  : Timers.page Logs.state
    * (Timers.page Logs.state -> Timers.page Logs.state) :=
  let fetchLogs := Logs.fetchLogs BACKEND_URL logs_server in
  let p1 := Timers.run fetchLogs p in
  let (interval, p2) := Timers.setInterval fetchLogs 15000 p1 in
  (* Refresh every 15 seconds *)
  (p2, fun q => Timers.clearInterval interval q).

Definition life (ticks late : nat) (p : Timers.page Logs.state)
  : Timers.page Logs.state :=
  let (mounted, cleanup) := useEffect p in
  let interval := Timers.next_handle p in
  Nat.iter late (Timers.elapse interval)
    (cleanup (Nat.iter ticks (Timers.elapse interval) mounted)).
End Component.
End LogsPolling.

(** * The form of the Settings view, field by field *)

Module SettingsForm.

(** [credentials[name]] *)
Definition field_value (name : Settings.field) (c : Credentials) : value :=
  match name with
  | Settings.f_whmcs_url => whmcs_url c
  | Settings.f_whmcs_identifier => whmcs_identifier c
  | Settings.f_whmcs_secret => whmcs_secret c
  | Settings.f_freeagent_client_id => freeagent_client_id c
  | Settings.f_freeagent_client_secret => freeagent_client_secret c
  end.

Definition field_eqb (a b : Settings.field) : bool :=
  match a, b with
  | Settings.f_whmcs_url, Settings.f_whmcs_url
  | Settings.f_whmcs_identifier, Settings.f_whmcs_identifier
  | Settings.f_whmcs_secret, Settings.f_whmcs_secret
  | Settings.f_freeagent_client_id, Settings.f_freeagent_client_id
  | Settings.f_freeagent_client_secret, Settings.f_freeagent_client_secret =>
      true
  | _, _ => false
  end.
End SettingsForm.

(** * More servers *)

Module Cases.

(** A server that answers every request with the error body
    [{ detail }]. *)
Definition refuses (detail : string)
  : list request -> request -> promise value :=
  fun _ _ =>
    Rejected (AxiosError (Some {| data := VObj [("detail", VStr detail)] |})).

(** A server that cannot be reached. *)
Definition unreachable {D : Type} : list request -> request -> promise D :=
  fun _ _ => Rejected (AxiosError None).

(** A server whose manual sync answers [200] with a body without
    [result]. *)
Definition sync_without_result : list request -> request -> promise value :=
  fun _ r =>
    match r with
    | POST _ _ => Resolved {| data := VObj [("status", VStr "queued")] |}
    | GET _ => Resolved {| data := Scenario.idle_status |}
    end.

(** A server that hands out the authorization page of FreeAgent. *)
Definition authorization : response value :=
  {| data := VObj [("authorization_url",
                    VStr "https://api.freeagent.com/v2/approve_app?client_id=1KPjokVRmomFNRVgQgqgEw")] |}.

Definition authorizes : list request -> request -> promise value :=
  fun _ _ => Resolved authorization.

(** A server that saves credentials, but fails on every [GET]. *)
Definition saves_only : list request -> request -> promise value :=
  fun _ r =>
    match r with
    | POST _ _ => Resolved {| data := VObj [("success", VBool true)] |}
    | GET _ => Rejected (AxiosError None)
    end.

(** What [Scenario.leaky] answers. *)
Definition account : response value :=
  {| data := VObj [("whmcs_url", VStr "https://billing.example.com");
                   ("whmcs_identifier", VStr "id-123");
                   ("whmcs_secret", VStr "s3cret");
                   ("freeagent_client_id", VStr "1KPjokVRmomFNRVgQgqgEw");
                   ("freeagent_client_secret", VStr "wzFQffiI6AkmY3zf9bHhJA");
                   ("is_connected", VBool true)] |}.

(** The Dashboard as it is mounted. *)
Definition dashboard_mounted : world Dashboard.state :=
  {| view := Dashboard.initial; network := []; console := [] |}.

(** The Settings page of a connected account, with the form filled in. *)
Definition settings_connected : world Settings.state :=
  Scenario.form_filled Scenario.leaky.
End Cases.

(** * Properties of the Dashboard *)

Section DashboardFacts.
Variable BACKEND_URL : string.
Variable server : list request -> request -> promise value.
Variable logs_server : list request -> request -> promise (list SyncLogEntry).
Variable toLocaleString : value -> string.

Local Notation status_request := (Dashboard.status_request BACKEND_URL).
Local Notation logs_request := (Dashboard.logs_request BACKEND_URL).
Local Notation manual_request := (Dashboard.manual_request BACKEND_URL).
Local Notation fetchData :=
  (Dashboard.fetchData BACKEND_URL server logs_server).
Local Notation handleManualSync :=
  (Dashboard.handleManualSync BACKEND_URL server logs_server).
Local Notation click_manual_sync :=
  (Dashboard.click_manual_sync BACKEND_URL server logs_server toLocaleString).
Local Notation render := (Dashboard.render toLocaleString).
Local Notation shown_banner := (Dashboard.shown_banner toLocaleString).
Local Notation manual_sync_enabled :=
  (Dashboard.manual_sync_enabled toLocaleString).

Ltac step :=
  unfold Dashboard.fetchData, Dashboard.handleManualSync,
    Dashboard.setSyncStatus, Dashboard.setRecentLogs, Dashboard.setSyncing,
    Dashboard.setAlert, Dashboard.setLoading,
    exec, bind, ret, throw, try_catch, try_finally, modify, console_error,
    axios, await, prop, promise_all in *;
  cbn [fst snd view network console data
       Dashboard.syncStatus Dashboard.recentLogs Dashboard.syncing
       Dashboard.alert Dashboard.loading] in *.

(** A fetch cycle never throws, issues its two requests, clears [loading]
    and leaves the banner and the [syncing] flag alone. *)
Lemma fetchData_frame (w : world Dashboard.state) :
  exists w',
    fetchData w = (Ok tt, w')
    /\ network w' = (network w ++ [status_request; logs_request])%list
    /\ Dashboard.alert (view w') = Dashboard.alert (view w)
    /\ Dashboard.syncing (view w') = Dashboard.syncing (view w)
    /\ Dashboard.loading (view w') = false.
Proof.
  step.
  destruct (server (network w) _) as [a | e];
    try destruct (logs_server _ _) as [b | e'];
    cbn; eexists; (split; [reflexivity |]); cbn;
    rewrite <- app_assoc; auto.
Qed.

Lemma shown_banner_loaded (s : Dashboard.state) :
  Dashboard.loading s = false -> shown_banner s = Dashboard.alert s.
Proof.
  intros H. unfold Dashboard.shown_banner, Dashboard.render.
  now rewrite H.
Qed.

Lemma enabled_is_loaded (s : Dashboard.state) :
  manual_sync_enabled s = true -> Dashboard.loading s = false.
Proof.
  unfold Dashboard.manual_sync_enabled, Dashboard.render.
  destruct (Dashboard.loading s); [discriminate | reflexivity].
Qed.

Ltac enter :=
  unfold Dashboard.handleManualSync, Dashboard.setSyncing,
    Dashboard.setAlert, exec, bind, ret, throw, try_catch, try_finally,
    modify, console_error, axios, await, prop;
  cbn [fst snd view network console data
       Dashboard.syncStatus Dashboard.recentLogs Dashboard.syncing
       Dashboard.alert Dashboard.loading].

(** The handler when the trigger request resolves with a body that has a
    [result]. *)
Lemma handleManualSync_resolved (w : world Dashboard.state) r :
  server (network w) manual_request = Resolved r ->
  nullish (data r) = false ->
  nullish (opt_prop (data r) "result") = false ->
  exists w',
    handleManualSync w = (Ok tt, w')
    /\ network w'
       = (network w ++ [manual_request; status_request; logs_request])%list
    /\ Dashboard.alert (view w')
       = Some {| alert_type := "success";
                 alert_message :=
                   js_or (opt_prop (opt_prop (data r) "result") "message")
                         (VStr "Sync completed successfully!") |}
    /\ Dashboard.syncing (view w') = false
    /\ Dashboard.loading (view w') = false.
Proof.
  intros Hp Hd Hr. enter. rewrite Hp. cbn. rewrite Hd. cbn.
  rewrite Hr. cbn.
  match goal with
  | |- context [Dashboard.fetchData _ _ _ ?x] =>
      destruct (fetchData_frame x) as (w2 & E & Hn & Ha & _ & Hl)
  end.
  rewrite E. cbn in *. eexists. split; [reflexivity |]. cbn.
  rewrite Hn, <- app_assoc. auto.
Qed.

(** The handler when the trigger request rejects. *)
Lemma handleManualSync_rejected (w : world Dashboard.state) e :
  server (network w) manual_request = Rejected e ->
  exists w',
    handleManualSync w = (Ok tt, w')
    /\ network w' = (network w ++ [manual_request])%list
    /\ Dashboard.alert (view w')
       = Some {| alert_type := "error";
                 alert_message :=
                   js_or (error_detail e)
                         (VStr "Sync failed. Please check your settings and try again.") |}
    /\ Dashboard.syncing (view w') = false
    /\ Dashboard.loading (view w') = Dashboard.loading (view w)
    /\ Dashboard.syncStatus (view w') = Dashboard.syncStatus (view w)
    /\ Dashboard.recentLogs (view w') = Dashboard.recentLogs (view w).
Proof.
  intros Hp. enter. rewrite Hp. cbn. eexists. split; [reflexivity |].
  cbn. auto 10.
Qed.

(** The handler when the trigger request resolves with a body without a
    [result]: reading [result.message] raises a [TypeError], which the
    [catch] clause turns into the generic error banner. *)
Lemma handleManualSync_no_result (w : world Dashboard.state) r :
  server (network w) manual_request = Resolved r ->
  nullish (data r) = true \/ nullish (opt_prop (data r) "result") = true ->
  exists w',
    handleManualSync w = (Ok tt, w')
    /\ network w' = (network w ++ [manual_request])%list
    /\ Dashboard.alert (view w')
       = Some {| alert_type := "error";
                 alert_message :=
                   VStr "Sync failed. Please check your settings and try again." |}.
Proof.
  intros Hp H. enter. rewrite Hp. cbn.
  destruct (nullish (data r)) eqn:Hd; cbn.
  - eexists. split; [reflexivity |]. cbn. auto.
  - destruct H as [H | H]; [discriminate |]. rewrite H. cbn.
    eexists. split; [reflexivity |]. cbn. auto.
Qed.

Lemma opt_prop_string_not_nullish v k X :
  opt_prop v k = VStr X -> nullish v = false.
Proof. destruct v; cbn; intros H; congruence. Qed.

Lemma opt_prop_not_nullish v k :
  nullish (opt_prop v k) = false -> nullish v = false.
Proof. destruct v; cbn; intros H; congruence. Qed.

Lemma truthy_nonempty X : X <> "" -> truthy (VStr X) = true.
Proof.
  intros H. cbn. apply negb_true_iff. now apply String.eqb_neq.
Qed.

(** C4.  In a fetch cycle the status request and the recent-logs request
    are both issued and awaited jointly; when either of them rejects, the
    cycle is logged as failed and neither [syncStatus] nor [recentLogs]
    changes. *)
Theorem fetchData_rejection_keeps_displayed_data (w : world Dashboard.state) :
  is_rejected (server (network w) status_request) = true
  \/ is_rejected
       (logs_server (network w ++ [status_request])%list logs_request) = true ->
  let w' := exec fetchData w in
  network w' = (network w ++ [status_request; logs_request])%list
  /\ Dashboard.syncStatus (view w') = Dashboard.syncStatus (view w)
  /\ Dashboard.recentLogs (view w') = Dashboard.recentLogs (view w)
  /\ exists e, console w' = (console w ++ [("Error fetching data:", e)])%list.
Proof.
  intros H. step.
  destruct (server (network w) _) as [a | e];
    try destruct (logs_server _ _) as [b | e'];
    cbn in *; rewrite <- ?app_assoc; cbn;
    try (destruct H; discriminate);
    repeat split; eauto.
Qed.

(** The other half of a fetch cycle: when both requests resolve, the two
    bodies are what the view shows from then on. *)
Lemma fetchData_resolved (w : world Dashboard.state) st lg :
  server (network w) status_request = Resolved st ->
  logs_server (network w ++ [status_request])%list logs_request
    = Resolved lg ->
  Dashboard.syncStatus (view (exec fetchData w)) = data st
  /\ Dashboard.recentLogs (view (exec fetchData w)) = data lg.
Proof.
  intros Hs Hl. step. rewrite Hs, Hl. cbn. auto.
Qed.

(** C1 (amended).  After a manual-sync trigger whose [POST /sync/manual]
    request succeeds with a body that carries a result, a status/logs
    fetch cycle is issued, and when that cycle succeeds the view shows the
    refreshed status and logs.  When the trigger request fails, the handler
    issues no fetch cycle: the [POST] is the only request it sends. *)
Theorem manual_sync_refreshes_after_success (w : world Dashboard.state) :
  let w' := exec handleManualSync w in
  (forall r,
      server (network w) manual_request = Resolved r ->
      nullish (data r) = false ->
      nullish (opt_prop (data r) "result") = false ->
      network w'
      = (network w ++ [manual_request; status_request; logs_request])%list
      /\ forall st lg,
           server (network w ++ [manual_request])%list status_request
             = Resolved st ->
           logs_server (network w ++ [manual_request; status_request])%list
                       logs_request = Resolved lg ->
           Dashboard.syncStatus (view w') = data st
           /\ Dashboard.recentLogs (view w') = data lg)
  /\ (forall e,
        server (network w) manual_request = Rejected e ->
        network w' = (network w ++ [manual_request])%list).
Proof.
  intros w'. split.
  - intros r Hp Hd Hr. split.
    + destruct (handleManualSync_resolved w r Hp Hd Hr) as (w2 & E & Hn & _).
      subst w'. unfold exec. now rewrite E.
    + intros st lg Hs Hl. subst w'. enter. rewrite Hp. cbn.
      rewrite Hd. cbn. rewrite Hr. cbn.
      match goal with
      | |- context [Dashboard.fetchData _ _ _ ?x] =>
          destruct (fetchData_frame x) as (w2 & E & _);
          pose proof (fetchData_resolved x st lg) as R
      end.
      unfold exec in R. rewrite E in *. cbn in *.
      rewrite <- app_assoc in R. exact (R Hs Hl).
  - intros e Hp.
    destruct (handleManualSync_rejected w e Hp) as (w2 & E & Hn & _).
    subst w'. unfold exec. now rewrite E.
Qed.

(** C2 (amended).  A click on the manual-sync control whose request
    resolves with [{ result: { message: X } }], [X] a non-empty string,
    leaves a success banner with the text [X] on the page; one whose
    request rejects with an error body [{ detail: Y }], [Y] a non-empty
    string, leaves an error banner with the text [Y].  The generic
    messages are shown when [message] (or [detail]) is absent or falsy,
    the empty string included. *)
Theorem manual_sync_banner (w : world Dashboard.state) :
  manual_sync_enabled (view w) = true ->
  let w' := exec click_manual_sync w in
  (forall r X,
      server (network w) manual_request = Resolved r ->
      opt_prop (opt_prop (data r) "result") "message" = VStr X ->
      X <> "" ->
      shown_banner (view w')
      = Some {| alert_type := "success"; alert_message := VStr X |})
  /\ (forall resp Y,
        server (network w) manual_request
          = Rejected (AxiosError (Some resp)) ->
        opt_prop (data resp) "detail" = VStr Y ->
        Y <> "" ->
        shown_banner (view w')
        = Some {| alert_type := "error"; alert_message := VStr Y |})
  /\ (forall r,
        server (network w) manual_request = Resolved r ->
        nullish (opt_prop (data r) "result") = false ->
        truthy (opt_prop (opt_prop (data r) "result") "message") = false ->
        shown_banner (view w')
        = Some {| alert_type := "success";
                  alert_message := VStr "Sync completed successfully!" |})
  /\ (forall e,
        server (network w) manual_request = Rejected e ->
        truthy (error_detail e) = false ->
        shown_banner (view w')
        = Some {| alert_type := "error";
                  alert_message :=
                    VStr "Sync failed. Please check your settings and try again." |}).
Proof.
  intros Hen w'.
  pose proof (enabled_is_loaded _ Hen) as Hload.
  assert (Hw : w' = exec handleManualSync w).
  { subst w'. unfold exec, Dashboard.click_manual_sync. now rewrite Hen. }
  rewrite Hw. clear Hw w'. unfold exec.
  split; [| split; [| split]].
  - intros r X Hp Hm HX.
    pose proof (opt_prop_string_not_nullish _ _ _ Hm) as Hr.
    pose proof (opt_prop_not_nullish _ _ Hr) as Hd.
    destruct (handleManualSync_resolved w r Hp Hd Hr)
      as (w2 & E & _ & Ha & _ & Hl).
    rewrite E. cbn [snd]. rewrite (shown_banner_loaded _ Hl), Ha, Hm.
    unfold js_or. now rewrite (truthy_nonempty _ HX).
  - intros resp Y Hp Hm HY.
    destruct (handleManualSync_rejected w _ Hp)
      as (w2 & E & _ & Ha & _ & Hl & _).
    rewrite E. cbn [snd]. rewrite <- Hl in Hload.
    rewrite (shown_banner_loaded _ Hload), Ha. cbn [error_detail].
    rewrite Hm. unfold js_or. now rewrite (truthy_nonempty _ HY).
  - intros r Hp Hr Hm.
    pose proof (opt_prop_not_nullish _ _ Hr) as Hd.
    destruct (handleManualSync_resolved w r Hp Hd Hr)
      as (w2 & E & _ & Ha & _ & Hl).
    rewrite E. cbn [snd]. rewrite (shown_banner_loaded _ Hl), Ha.
    unfold js_or. now rewrite Hm.
  - intros e Hp Hm.
    destruct (handleManualSync_rejected w _ Hp)
      as (w2 & E & _ & Ha & _ & Hl & _).
    rewrite E. cbn [snd]. rewrite <- Hl in Hload.
    rewrite (shown_banner_loaded _ Hload), Ha.
    unfold js_or. now rewrite Hm.
Qed.

(** C7.  In every state of the Dashboard in which the status on display
    has [is_running = true], the manual-sync control is disabled, whatever
    the local [syncing] flag is: the button on the page carries
    [disabled], and no state has it clickable. *)
Theorem manual_sync_disabled_while_running (s : Dashboard.state) :
  opt_prop (Dashboard.syncStatus s) "is_running" = VBool true ->
  (forall p, render s = Dashboard.LoadedPage p ->
             Dashboard.manual_sync_disabled p = true)
  /\ manual_sync_enabled s = false.
Proof.
  intros H.
  assert (Hb : Dashboard.busy s = true).
  { unfold Dashboard.busy, js_or. rewrite H.
    destruct (Dashboard.syncing s); reflexivity. }
  unfold Dashboard.manual_sync_enabled, Dashboard.render.
  destruct (Dashboard.loading s).
  - split; [discriminate | reflexivity].
  - split.
    + intros p Hp. injection Hp as <-. exact Hb.
    + cbn. now rewrite Hb.
Qed.
End DashboardFacts.

(** ** The Dashboard statements on concrete servers *)

Lemma fetchData_rejection_keeps_displayed_data_witness :
  (is_rejected (Scenario.status_down
                  (network Scenario.dashboard_loaded)
                  (Dashboard.status_request Scenario.backend_url)) = true
   \/ is_rejected (Scenario.logs_are [Scenario.another_log]
                     (network Scenario.dashboard_loaded
                        ++ [Dashboard.status_request Scenario.backend_url])%list
                     (Dashboard.logs_request Scenario.backend_url)) = true)
  /\ let w' := exec (Dashboard.fetchData Scenario.backend_url
                       Scenario.status_down
                       (Scenario.logs_are [Scenario.another_log]))
                    Scenario.dashboard_loaded in
     network w' = [GET "http://localhost:8001/api/sync/status";
                   GET "http://localhost:8001/api/sync/logs?limit=5"]
     /\ Dashboard.syncStatus (view w') = Scenario.idle_status
     /\ Dashboard.recentLogs (view w') = [Scenario.a_log]
     /\ exists e, console w' = [("Error fetching data:", e)].
Proof.
  split.
  - left. reflexivity.
  - apply (fetchData_rejection_keeps_displayed_data
             Scenario.backend_url Scenario.status_down
             (Scenario.logs_are [Scenario.another_log])
             Scenario.dashboard_loaded).
    left. reflexivity.
Defined.

Lemma manual_sync_refreshes_after_success_witness :
  let r := {| data := VObj [("result", VObj [("message", VStr "Imported 3 invoices")])] |} in
  Scenario.sync_succeeds "Imported 3 invoices"
    (network Scenario.dashboard_loaded)
    (Dashboard.manual_request Scenario.backend_url) = Resolved r
  /\ nullish (data r) = false
  /\ nullish (opt_prop (data r) "result") = false
  /\ network (exec (Dashboard.handleManualSync Scenario.backend_url
                      (Scenario.sync_succeeds "Imported 3 invoices")
                      (Scenario.logs_are [Scenario.another_log]))
                   Scenario.dashboard_loaded)
     = [POST "http://localhost:8001/api/sync/manual" None;
        GET "http://localhost:8001/api/sync/status";
        GET "http://localhost:8001/api/sync/logs?limit=5"].
Proof.
  intros r.
  split; [reflexivity | split; [reflexivity | split; [reflexivity |]]].
  apply (proj1 (manual_sync_refreshes_after_success
                  Scenario.backend_url
                  (Scenario.sync_succeeds "Imported 3 invoices")
                  (Scenario.logs_are [Scenario.another_log])
                  Scenario.dashboard_loaded) r); reflexivity.
Defined.

(** C1, as stated, fails when the trigger request is rejected: the handler
    issues the [POST] and nothing else. *)
Lemma manual_sync_failure_without_refresh :
  let w' := exec (Dashboard.handleManualSync Scenario.backend_url
                    (Scenario.sync_fails "WHMCS credentials not configured")
                    (Scenario.logs_are [Scenario.another_log]))
                 Scenario.dashboard_loaded in
  network w' = [POST "http://localhost:8001/api/sync/manual" None]
  /\ ~ In (Dashboard.status_request Scenario.backend_url) (network w')
  /\ ~ In (Dashboard.logs_request Scenario.backend_url) (network w')
  /\ Dashboard.recentLogs (view w') = [Scenario.a_log].
Proof.
  cbn. repeat split; intros [H | []]; discriminate H.
Qed.

Lemma manual_sync_banner_witness :
  Dashboard.manual_sync_enabled Scenario.show_date
    (view Scenario.dashboard_loaded) = true
  /\ Dashboard.shown_banner Scenario.show_date
       (view (exec (Dashboard.click_manual_sync Scenario.backend_url
                      (Scenario.sync_succeeds "Imported 3 invoices")
                      (Scenario.logs_are [Scenario.another_log])
                      Scenario.show_date)
                   Scenario.dashboard_loaded))
     = Some {| alert_type := "success";
               alert_message := VStr "Imported 3 invoices" |}
  /\ Dashboard.shown_banner Scenario.show_date
       (view (exec (Dashboard.click_manual_sync Scenario.backend_url
                      (Scenario.sync_fails "WHMCS credentials not configured")
                      (Scenario.logs_are [Scenario.another_log])
                      Scenario.show_date)
                   Scenario.dashboard_loaded))
     = Some {| alert_type := "error";
               alert_message := VStr "WHMCS credentials not configured" |}.
Proof.
  split; [reflexivity | split].
  - refine (proj1 (manual_sync_banner Scenario.backend_url
                     (Scenario.sync_succeeds "Imported 3 invoices")
                     (Scenario.logs_are [Scenario.another_log])
                     Scenario.show_date Scenario.dashboard_loaded eq_refl)
                  _ "Imported 3 invoices" eq_refl eq_refl _).
    discriminate.
  - refine (proj1 (proj2 (manual_sync_banner Scenario.backend_url
                     (Scenario.sync_fails "WHMCS credentials not configured")
                     (Scenario.logs_are [Scenario.another_log])
                     Scenario.show_date Scenario.dashboard_loaded eq_refl))
                  _ "WHMCS credentials not configured" eq_refl eq_refl _).
    discriminate.
Defined.

(** C2, as stated, fails for the empty message: [message || ...] takes the
    generic text although the field is there. *)
Lemma manual_sync_empty_message_banner :
  let w' := exec (Dashboard.click_manual_sync Scenario.backend_url
                    (Scenario.sync_succeeds "")
                    (Scenario.logs_are [Scenario.another_log])
                    Scenario.show_date)
                 Scenario.dashboard_loaded in
  Scenario.sync_succeeds "" (network Scenario.dashboard_loaded)
    (Dashboard.manual_request Scenario.backend_url)
  = Resolved {| data := VObj [("result", VObj [("message", VStr "")])] |}
  /\ Dashboard.shown_banner Scenario.show_date (view w')
     = Some {| alert_type := "success";
               alert_message := VStr "Sync completed successfully!" |}
  /\ Dashboard.shown_banner Scenario.show_date (view w')
     <> Some {| alert_type := "success"; alert_message := VStr "" |}.
Proof.
  cbn. repeat split. discriminate.
Qed.

Lemma manual_sync_disabled_while_running_witness :
  let s := {| Dashboard.syncStatus := Scenario.running_status;
              Dashboard.recentLogs := [];
              Dashboard.syncing := false;
              Dashboard.alert := None;
              Dashboard.loading := false |} in
  opt_prop (Dashboard.syncStatus s) "is_running" = VBool true
  /\ (forall p, Dashboard.render Scenario.show_date s = Dashboard.LoadedPage p ->
                Dashboard.manual_sync_disabled p = true)
  /\ Dashboard.manual_sync_enabled Scenario.show_date s = false.
Proof.
  intros s. split; [reflexivity |].
  apply (manual_sync_disabled_while_running Scenario.show_date s).
  reflexivity.
Defined.

(** * Properties of the Settings view *)

Section SettingsFacts.
Variable BACKEND_URL : string.
Variable server : list request -> request -> promise value.

Local Notation credentials_request :=
  (Settings.credentials_request BACKEND_URL).
Local Notation fetchCredentials :=
  (Settings.fetchCredentials BACKEND_URL server).
Local Notation useEffect := (Settings.useEffect BACKEND_URL server).
Local Notation visit := (Settings.visit BACKEND_URL server).
Local Notation refresh := (Settings.refresh BACKEND_URL server).
Local Notation click_connect := (Settings.click_connect BACKEND_URL server).

Ltac settings_step :=
  unfold Settings.visit, Settings.refresh, Settings.mount,
    Settings.useEffect, Settings.fetchCredentials,
    Settings.fetchCredentials_start,
    Settings.fetchCredentials_resume, Settings.oauth_callback,
    Settings.handleConnectFreeAgent,
    Settings.setCredentials, Settings.setLoading, Settings.setIsConnected,
    Settings.setAlert, Settings.setConnecting, Settings.replaceState,
    Settings.set_location_href,
    exec, bind, ret, throw, try_catch, try_finally, modify, console_error,
    axios, await, prop in *;
  cbn [fst snd view network console data
       Settings.credentials Settings.loading Settings.saving
       Settings.connecting Settings.disconnecting Settings.isConnected
       Settings.alert Settings.address Settings.href] in *.

(** Cutting [fetchCredentials] at its [await] does not change it. *)
Lemma fetchCredentials_cut (w : world Settings.state) :
  fetchCredentials w
  = bind (Settings.fetchCredentials_start BACKEND_URL server)
         Settings.fetchCredentials_resume w.
Proof.
  settings_step. destruct (server (network w) _) as [r | e]; reflexivity.
Qed.

(** What a load of the credentials does to the form, case by case. *)
Lemma fetchCredentials_cases (w : world Settings.state) :
  let w' := exec fetchCredentials w in
  match server (network w) credentials_request with
  | Resolved r =>
      if truthy (data r)
      then Settings.credentials (view w')
           = {| whmcs_url := js_or (opt_prop (data r) "whmcs_url") (VStr "");
                whmcs_identifier := VStr "";
                whmcs_secret := VStr "";
                freeagent_client_id :=
                  js_or (opt_prop (data r) "freeagent_client_id") (VStr "");
                freeagent_client_secret := VStr "" |}
           /\ Settings.isConnected (view w')
              = js_or (opt_prop (data r) "is_connected") (VBool false)
      else Settings.credentials (view w') = Settings.credentials (view w)
           /\ Settings.isConnected (view w') = Settings.isConnected (view w)
  | Rejected _ =>
      Settings.credentials (view w') = Settings.credentials (view w)
      /\ Settings.isConnected (view w') = Settings.isConnected (view w)
  end.
Proof.
  settings_step.
  destruct (server (network w) _) as [r | e]; cbn.
  - destruct (truthy (data r)); cbn; auto.
  - auto.
Qed.

(** The effect of the component and a plain [fetchCredentials] leave the
    same credentials in the form: the check for the OAuth callback does not
    touch them. *)
Lemma useEffect_credentials (sp : Settings.URLSearchParams)
    (w : world Settings.state) :
  Settings.credentials (view (exec (useEffect sp) w))
  = Settings.credentials (view (exec fetchCredentials w)).
Proof.
  settings_step.
  destruct (Settings.strict_eq _ "success");
    [| destruct (Settings.strict_eq _ "error")];
    cbn;
    (destruct (server (network w) _) as [r | e]; cbn;
     [destruct (truthy (data r)); reflexivity | reflexivity]).
Qed.

(** On the first load the form is blank whatever comes back, as it was
    blank before. *)
Lemma first_load_blank_secrets (addr : string) (history : list request)
    (sp : Settings.URLSearchParams) :
  let w' := exec (useEffect sp) (Settings.mount addr history) in
  whmcs_identifier (Settings.credentials (view w')) = VStr ""
  /\ whmcs_secret (Settings.credentials (view w')) = VStr ""
  /\ freeagent_client_secret (Settings.credentials (view w')) = VStr "".
Proof.
  intros w'. subst w'. rewrite useEffect_credentials.
  pose proof (fetchCredentials_cases (Settings.mount addr history)) as H.
  cbn zeta in H.
  destruct (server _ _) as [r | e];
    [destruct (truthy (data r)) |];
    destruct H as [-> _]; auto.
Qed.

(** C3 (amended).  For every successful response to
    [GET /settings/credentials] that carries a body ([response.data] is
    truthy), whatever the values in it, the form has [whmcs_secret = ""] and
    [freeagent_client_secret = ""] after the load, from whatever state the
    load started.  A response with an empty body leaves the form as it
    was. *)
Theorem fetchCredentials_blanks_secrets (w : world Settings.state) r :
  server (network w) credentials_request = Resolved r ->
  let w' := exec fetchCredentials w in
  (truthy (data r) = true ->
   whmcs_secret (Settings.credentials (view w')) = VStr ""
   /\ freeagent_client_secret (Settings.credentials (view w')) = VStr "")
  /\ (truthy (data r) = false ->
      Settings.credentials (view w') = Settings.credentials (view w)).
Proof.
  intros Hp w'.
  pose proof (fetchCredentials_cases w) as H. cbn zeta in H.
  rewrite Hp in H. subst w'. split; intros Ht; rewrite Ht in H.
  - destruct H as [H _]. rewrite H. auto.
  - apply H.
Qed.

(** C9 (amended).  For every successful response to
    [GET /settings/credentials] that carries a body, the load resets
    [whmcs_identifier] to the empty string, also when the body has a
    non-empty [whmcs_identifier]; of the body only [whmcs_url],
    [freeagent_client_id] and [is_connected] reach the state.  A response
    with an empty body leaves the form and the connection flag as they
    were. *)
Theorem fetchCredentials_resets_identifier (w : world Settings.state) r :
  server (network w) credentials_request = Resolved r ->
  let w' := exec fetchCredentials w in
  (truthy (data r) = true ->
   whmcs_identifier (Settings.credentials (view w')) = VStr ""
   /\ Settings.credentials (view w')
      = {| whmcs_url := js_or (opt_prop (data r) "whmcs_url") (VStr "");
           whmcs_identifier := VStr "";
           whmcs_secret := VStr "";
           freeagent_client_id :=
             js_or (opt_prop (data r) "freeagent_client_id") (VStr "");
           freeagent_client_secret := VStr "" |}
   /\ Settings.isConnected (view w')
      = js_or (opt_prop (data r) "is_connected") (VBool false))
  /\ (truthy (data r) = false ->
      whmcs_identifier (Settings.credentials (view w'))
      = whmcs_identifier (Settings.credentials (view w))
      /\ Settings.isConnected (view w') = Settings.isConnected (view w)).
Proof.
  intros Hp w'.
  pose proof (fetchCredentials_cases w) as H. cbn zeta in H.
  rewrite Hp in H. subst w'. split; intros Ht; rewrite Ht in H.
  - destruct H as [H1 H2]. rewrite H1, H2. auto.
  - destruct H as [H1 H2]. rewrite H1, H2. auto.
Qed.

(** A visit shows the banner the OAuth check has set, once the credentials
    request has settled; without an [oauth] parameter there is none. *)
Lemma visit_without_oauth (addr : string) (sp : Settings.URLSearchParams)
    (history : list request) :
  Settings.searchParams_get sp "oauth" = None ->
  Settings.shown_banner (view (visit addr sp history)) = None.
Proof.
  intros H. unfold Settings.shown_banner, Settings.render.
  settings_step. rewrite H. cbn.
  destruct (server history _) as [r | e]; cbn;
    [destruct (truthy (data r)); reflexivity | reflexivity].
Qed.

(** C5.  A visit of [/settings] whose decoded query parameters have
    [oauth=success] shows the success banner, the address is rewritten to
    exactly [/settings], which has no query string, and a refresh of the
    page, whose address then has no parameters, shows no banner. *)
Theorem oauth_success_banner_and_clean_address
    (addr : string) (sp : Settings.URLSearchParams)
    (history : list request) :
  Settings.searchParams_get sp "oauth" = Some "success" ->
  let w' := visit addr sp history in
  Settings.shown_banner (view w')
  = Some {| alert_type := "success";
            alert_message := VStr "Successfully connected to FreeAgent!" |}
  /\ Settings.address (view w') = "/settings"
  /\ Settings.query_of (Settings.address (view w')) = None
  /\ forall sp',
       Settings.parameters_of (Settings.address (view w')) sp' ->
       Settings.shown_banner (view (refresh sp' w')) = None.
Proof.
  intros H w'.
  assert (Ha : Settings.address (view w') = "/settings").
  { subst w'. settings_step. rewrite H. cbn.
    destruct (server history _) as [r | e]; cbn;
      [destruct (truthy (data r)); reflexivity | reflexivity]. }
  split; [| split; [exact Ha | split]].
  - subst w'. unfold Settings.shown_banner, Settings.render.
    settings_step. rewrite H. cbn.
    destruct (server history _) as [r | e]; cbn;
      [destruct (truthy (data r)); reflexivity | reflexivity].
  - rewrite Ha. reflexivity.
  - intros sp' Hp. unfold Settings.refresh.
    assert (Hs : sp' = []) by (inversion Hp; reflexivity).
    rewrite Hs. apply visit_without_oauth. reflexivity.
Qed.

Lemma append_empty_r (t : string) : t ++ "" = t.
Proof. induction t as [| c t IH]; cbn; [reflexivity | now rewrite IH]. Qed.

(** C6.  A visit of [/settings] whose decoded query parameters have
    [oauth=error] shows an error banner: with a [message] parameter of
    decoded value [M] its text contains [M] (it is [M] itself unless [M] is
    empty), and without a [message] parameter it is the generic failure
    message. *)
Theorem oauth_error_banner (addr : string) (sp : Settings.URLSearchParams)
    (history : list request) :
  Settings.searchParams_get sp "oauth" = Some "error" ->
  let w' := visit addr sp history in
  (forall M,
      Settings.searchParams_get sp "message" = Some M ->
      exists text,
        Settings.shown_banner (view w')
        = Some {| alert_type := "error"; alert_message := VStr text |}
        /\ Settings.contains text M
        /\ (M <> "" -> text = M))
  /\ (Settings.searchParams_get sp "message" = None ->
      Settings.shown_banner (view w')
      = Some {| alert_type := "error";
                alert_message := VStr "Failed to connect to FreeAgent" |}).
Proof.
  intros H w'. split.
  - intros M HM.
    exists (if M =? "" then "Failed to connect to FreeAgent" else M).
    split; [| split].
    + subst w'. unfold Settings.shown_banner, Settings.render.
      settings_step. rewrite H, HM. cbn.
      destruct (server history _) as [r | e]; cbn;
        [destruct (truthy (data r)) |];
        cbn; unfold js_or; cbn; destruct (M =? ""); reflexivity.
    + destruct (M =? "") eqn:E.
      * apply String.eqb_eq in E. subst M.
        exists "", "Failed to connect to FreeAgent". reflexivity.
      * exists "", "". cbn. now rewrite append_empty_r.
    + intros HM'. apply String.eqb_neq in HM'. now rewrite HM'.
  - intros HM. subst w'. unfold Settings.shown_banner, Settings.render.
    settings_step. rewrite H, HM. cbn.
    destruct (server history _) as [r | e]; cbn;
      [destruct (truthy (data r)); reflexivity | reflexivity].
Qed.

(** C10.  Whenever the [freeagent_client_id] field of the form is empty,
    the "Connect to FreeAgent" control is disabled (as it is while a
    connect request is in flight), and a click on it issues no request. *)
Theorem connect_disabled_without_client_id (w : world Settings.state) :
  freeagent_client_id (Settings.credentials (view w)) = VStr "" ->
  (forall p disabled label,
      Settings.render (view w) = Settings.LoadedPage p ->
      Settings.connection p = Settings.NotConnected disabled label ->
      disabled = true)
  /\ Settings.connect_enabled (view w) = false
  /\ click_connect w = (Ok tt, w)
  /\ network (exec click_connect w) = network w.
Proof.
  intros H.
  assert (He : Settings.connect_enabled (view w) = false).
  { unfold Settings.connect_enabled, Settings.render. rewrite H.
    destruct (Settings.loading (view w)); [reflexivity |].
    destruct (truthy (Settings.isConnected (view w))); [reflexivity |].
    cbn. now rewrite orb_true_r. }
  split; [| split; [exact He | ]].
  - intros p disabled label Hr Hc. unfold Settings.render in Hr.
    destruct (Settings.loading (view w)); [discriminate |].
    injection Hr as <-. cbn in Hc. rewrite H in Hc.
    destruct (truthy (Settings.isConnected (view w))); [discriminate |].
    injection Hc as <- _. cbn. apply orb_true_r.
  - unfold exec, Settings.click_connect. rewrite He. auto.
Qed.

(** While a connect request is in flight the control is disabled too. *)
Lemma connect_disabled_while_connecting (s : Settings.state) :
  Settings.connecting s = true -> Settings.connect_enabled s = false.
Proof.
  intros H. unfold Settings.connect_enabled, Settings.render. rewrite H.
  destruct (Settings.loading s); [reflexivity |].
  destruct (truthy (Settings.isConnected s)); reflexivity.
Qed.
End SettingsFacts.

(** ** The Settings statements on concrete servers *)

Lemma fetchCredentials_blanks_secrets_witness :
  let w := Scenario.form_filled Scenario.leaky in
  let r := {| data := VObj [("whmcs_url", VStr "https://billing.example.com");
                            ("whmcs_identifier", VStr "id-123");
                            ("whmcs_secret", VStr "s3cret");
                            ("freeagent_client_id", VStr "1KPjokVRmomFNRVgQgqgEw");
                            ("freeagent_client_secret", VStr "wzFQffiI6AkmY3zf9bHhJA");
                            ("is_connected", VBool true)] |} in
  let w' := exec (Settings.fetchCredentials Scenario.backend_url Scenario.leaky) w in
  (Scenario.leaky (network w)
     (Settings.credentials_request Scenario.backend_url) = Resolved r
   /\ truthy (data r) = true)
  /\ whmcs_secret (Settings.credentials (view w)) = VStr "s3cret"
  /\ whmcs_secret (Settings.credentials (view w')) = VStr ""
  /\ freeagent_client_secret (Settings.credentials (view w')) = VStr "".
Proof.
  intros w r w'.
  split; [split; reflexivity | split; [reflexivity |]].
  apply (proj1 (fetchCredentials_blanks_secrets
                  Scenario.backend_url Scenario.leaky w r eq_refl)).
  reflexivity.
Defined.

(** C3, as stated, fails for a response with an empty body: the guard
    [if (response.data)] skips [setCredentials], and the secrets typed into
    the form stay there. *)
Lemma credentials_reload_keeps_typed_secrets :
  let w := Scenario.form_filled Scenario.nothing_stored in
  let w' := exec (Settings.fetchCredentials Scenario.backend_url
                    Scenario.nothing_stored) w in
  Scenario.nothing_stored (network w)
    (Settings.credentials_request Scenario.backend_url)
  = Resolved {| data := VNull |}
  /\ Settings.loading (view w') = false
  /\ whmcs_secret (Settings.credentials (view w')) = VStr "s3cret"
  /\ freeagent_client_secret (Settings.credentials (view w'))
     = VStr "wzFQffiI6AkmY3zf9bHhJA"
  /\ whmcs_secret (Settings.credentials (view w')) <> VStr ""
  /\ freeagent_client_secret (Settings.credentials (view w')) <> VStr "".
Proof.
  cbn. repeat split; discriminate.
Qed.

Lemma fetchCredentials_resets_identifier_witness :
  let w := Scenario.form_filled Scenario.leaky in
  let r := {| data := VObj [("whmcs_url", VStr "https://billing.example.com");
                            ("whmcs_identifier", VStr "id-123");
                            ("whmcs_secret", VStr "s3cret");
                            ("freeagent_client_id", VStr "1KPjokVRmomFNRVgQgqgEw");
                            ("freeagent_client_secret", VStr "wzFQffiI6AkmY3zf9bHhJA");
                            ("is_connected", VBool true)] |} in
  let w' := exec (Settings.fetchCredentials Scenario.backend_url Scenario.leaky) w in
  (Scenario.leaky (network w)
     (Settings.credentials_request Scenario.backend_url) = Resolved r
   /\ truthy (data r) = true)
  /\ whmcs_identifier (Settings.credentials (view w)) = VStr "id-123"
  /\ whmcs_identifier (Settings.credentials (view w')) = VStr ""
  /\ Settings.credentials (view w')
     = {| whmcs_url := VStr "https://billing.example.com";
          whmcs_identifier := VStr "";
          whmcs_secret := VStr "";
          freeagent_client_id := VStr "1KPjokVRmomFNRVgQgqgEw";
          freeagent_client_secret := VStr "" |}
  /\ Settings.isConnected (view w') = VBool true.
Proof.
  intros w r w'.
  split; [split; reflexivity | split; [reflexivity |]].
  apply (proj1 (fetchCredentials_resets_identifier
                  Scenario.backend_url Scenario.leaky w r eq_refl)).
  reflexivity.
Defined.

(** C9, as stated, fails for a response with an empty body: after a save
    on a server that answers the reload with [null], the identifier typed
    into the form is still there. *)
Lemma credentials_reload_keeps_typed_identifier :
  let w' := Scenario.settings_session Scenario.nothing_stored in
  network w'
  = [GET "http://localhost:8001/api/settings/credentials";
     POST "http://localhost:8001/api/settings/credentials"
          (Some {| whmcs_url := VStr "https://billing.example.com";
                   whmcs_identifier := VStr "id-123";
                   whmcs_secret := VStr "s3cret";
                   freeagent_client_id := VStr "1KPjokVRmomFNRVgQgqgEw";
                   freeagent_client_secret := VStr "wzFQffiI6AkmY3zf9bHhJA" |});
     GET "http://localhost:8001/api/settings/credentials"]
  /\ Scenario.nothing_stored
       (removelast (network w'))
       (Settings.credentials_request Scenario.backend_url)
     = Resolved {| data := VNull |}
  /\ whmcs_identifier (Settings.credentials (view w')) = VStr "id-123"
  /\ whmcs_identifier (Settings.credentials (view w')) <> VStr "".
Proof.
  cbn. repeat split. discriminate.
Qed.

Lemma oauth_success_banner_and_clean_address_witness :
  let sp := [("oauth", "success")] in
  let w' := Settings.visit Scenario.backend_url Scenario.leaky
              "/settings?oauth=success" sp [] in
  Settings.searchParams_get sp "oauth" = Some "success"
  /\ Settings.shown_banner (view w')
     = Some {| alert_type := "success";
               alert_message := VStr "Successfully connected to FreeAgent!" |}
  /\ Settings.address (view w') = "/settings"
  /\ Settings.query_of (Settings.address (view w')) = None
  /\ Settings.parameters_of (Settings.address (view w')) []
  /\ Settings.shown_banner
       (view (Settings.refresh Scenario.backend_url Scenario.leaky [] w'))
     = None.
Proof.
  intros sp w'. split; [reflexivity |].
  destruct (oauth_success_banner_and_clean_address
              Scenario.backend_url Scenario.leaky
              "/settings?oauth=success" sp [] eq_refl)
    as (Hb & Ha & Hq & Hr).
  assert (Hp : Settings.parameters_of (Settings.address (view w')) [])
    by (apply Settings.no_query; exact Hq).
  split; [exact Hb | split; [exact Ha | split; [exact Hq |]]].
  split; [exact Hp | exact (Hr [] Hp)].
Defined.

Lemma oauth_error_banner_witness :
  let sp := [("oauth", "error"); ("message", "Access denied")] in
  let w' := Settings.visit Scenario.backend_url Scenario.leaky
              "/settings?oauth=error&message=Access%20denied" sp [] in
  Settings.searchParams_get sp "oauth" = Some "error"
  /\ Settings.shown_banner (view w')
     = Some {| alert_type := "error"; alert_message := VStr "Access denied" |}.
Proof.
  intros sp w'. split; [reflexivity |].
  destruct (proj1 (oauth_error_banner
                     Scenario.backend_url Scenario.leaky
                     "/settings?oauth=error&message=Access%20denied" sp []
                     eq_refl)
                  "Access denied" eq_refl)
    as (text & Hb & _ & Ht).
  subst w'. rewrite Hb, Ht; [reflexivity | discriminate].
Defined.

Lemma connect_disabled_without_client_id_witness :
  let w := Settings.visit Scenario.backend_url Scenario.nothing_stored
             "/settings" [] [] in
  freeagent_client_id (Settings.credentials (view w)) = VStr ""
  /\ Settings.render (view w)
     = Settings.LoadedPage
         {| Settings.banner := None;
            Settings.inputs := Settings.blank;
            Settings.save_disabled := false;
            Settings.save_label := "Save Credentials";
            Settings.connection :=
              Settings.NotConnected true "Connect to FreeAgent" |}
  /\ Settings.connect_enabled (view w) = false
  /\ network (exec (Settings.click_connect Scenario.backend_url
                      Scenario.nothing_stored) w)
     = network w.
Proof.
  intros w. split; [reflexivity | split; [reflexivity |]].
  destruct (connect_disabled_without_client_id
              Scenario.backend_url Scenario.nothing_stored w eq_refl)
    as (_ & He & _ & Hn).
  split; assumption.
Defined.

(** * Properties of the Logs view *)

Section LogsFacts.
Variable BACKEND_URL : string.
Variable logs_server : list request -> request -> promise (list SyncLogEntry).
Variable toLocaleString : value -> string.

Local Notation logs_request := (Logs.logs_request BACKEND_URL).
Local Notation fetchLogs := (Logs.fetchLogs BACKEND_URL logs_server).
Local Notation render := (Logs.render toLocaleString).
Local Notation render_log := (Logs.render_log toLocaleString).

(** C8.  For every sequence of entries that [GET /sync/logs?limit=100]
    returns, the Logs view keeps the sequence as it came and renders one
    row per entry, in the order of the response; for the empty sequence
    it renders the empty-state message and no list. *)
Theorem logs_rendered_in_backend_order (w : world Logs.state) r :
  logs_server (network w) logs_request = Resolved r ->
  let w' := exec fetchLogs w in
  Logs.logs (view w') = data r
  /\ render (view w')
     = Logs.LoadedPage
         (match data r with
          | [] => Logs.EmptyState "No sync logs yet"
          | _ :: _ => Logs.LogRows (map render_log (data r))
          end)
  /\ map (Logs.row_key) (map render_log (data r)) = map id (data r)
  /\ forall i,
       nth_error (map render_log (data r)) i
       = option_map render_log (nth_error (data r) i).
Proof.
  intros Hp w'. subst w'.
  unfold Logs.fetchLogs, Logs.setLogs, Logs.setLoading, Logs.render,
    exec, bind, ret, try_catch, modify, axios, await.
  cbn. rewrite Hp. cbn.
  split; [reflexivity | split; [| split]].
  - destruct (data r); reflexivity.
  - rewrite map_map. reflexivity.
  - intros i. apply nth_error_map.
Qed.

(** A failed fetch leaves the list on display as it was. *)
Lemma fetchLogs_rejection_keeps_logs (w : world Logs.state) e :
  logs_server (network w) logs_request = Rejected e ->
  Logs.logs (view (exec fetchLogs w)) = Logs.logs (view w).
Proof.
  intros Hp.
  unfold Logs.fetchLogs, Logs.setLogs, Logs.setLoading,
    exec, bind, ret, throw, try_catch, modify, console_error, axios, await.
  cbn. rewrite Hp. reflexivity.
Qed.
End LogsFacts.

Lemma logs_rendered_in_backend_order_witness :
  let entries := [Scenario.a_log; Scenario.another_log] in
  let w' := exec (Logs.fetchLogs Scenario.backend_url
                    (Scenario.logs_are entries)) Scenario.logs_mounted in
  Scenario.logs_are entries (network Scenario.logs_mounted)
    (Logs.logs_request Scenario.backend_url)
  = Resolved {| data := entries |}
  /\ Logs.logs (view w') = entries
  /\ Logs.render Scenario.show_date (view w')
     = Logs.LoadedPage
         (Logs.LogRows [Logs.render_log Scenario.show_date Scenario.a_log;
                        Logs.render_log Scenario.show_date Scenario.another_log])
  /\ Logs.render Scenario.show_date
       (view (exec (Logs.fetchLogs Scenario.backend_url (Scenario.logs_are []))
                   Scenario.logs_mounted))
     = Logs.LoadedPage (Logs.EmptyState "No sync logs yet").
Proof.
  intros entries w'. split; [reflexivity |].
  destruct (logs_rendered_in_backend_order
              Scenario.backend_url (Scenario.logs_are entries)
              Scenario.show_date Scenario.logs_mounted
              {| data := entries |} eq_refl) as (Hl & Hr & _).
  destruct (logs_rendered_in_backend_order
              Scenario.backend_url (Scenario.logs_are [])
              Scenario.show_date Scenario.logs_mounted
              {| data := [] |} eq_refl) as (_ & He & _).
  split; [exact Hl | split; [exact Hr | exact He]].
Defined.

(** * Polling: how many fetches a mounted component issues *)

Section PollingFacts.
Context {St : Type}.
Variable cb : M St unit.
Variable cycle : list request.
Hypothesis cb_requests :
  forall w, network (exec cb w) = (network w ++ cycle)%list.

Lemma find_cleared (h : nat) (l : list (Timers.timer St)) :
  find (fun t => (Timers.handle t =? h)%nat)
       (filter (fun t => negb (Timers.handle t =? h)%nat) l) = None.
Proof.
  induction l as [| t l IH]; cbn; [reflexivity |].
  destruct (Timers.handle t =? h)%nat eqn:E; cbn; [exact IH |].
  now rewrite E.
Qed.

Lemma filter_other_handles (h : nat) (l : list (Timers.timer St)) :
  Forall (fun t => Timers.handle t < h) l ->
  filter (fun t => negb (Timers.handle t =? h)%nat) l = l.
Proof.
  induction 1 as [| t l Ht _ IH]; cbn; [reflexivity |].
  assert (E : (Timers.handle t =? h)%nat = false)
    by (apply Nat.eqb_neq; lia).
  rewrite E. cbn. now rewrite IH.
Qed.

(** While the interval is set, each elapse of it is one run of the
    callback. *)
Lemma elapse_while_set (h : nat) (ms : Z) (rest : list (Timers.timer St))
    (n : nat) (p : Timers.page St) :
  Timers.timers p
  = {| Timers.handle := h; Timers.delay := ms; Timers.callback := cb |}
      :: rest ->
  let q := Nat.iter n (Timers.elapse h) p in
  Timers.timers q = Timers.timers p
  /\ Timers.next_handle q = Timers.next_handle p
  /\ network (Timers.app q)
     = (network (Timers.app p) ++ concat (repeat cycle n))%list.
Proof.
  intros Ht q. subst q. induction n as [| n IH].
  - cbn. rewrite app_nil_r. auto.
  - rewrite Nat.iter_succ. destruct IH as (IH1 & IH2 & IH3).
    set (x := Nat.iter n (Timers.elapse h) p) in *.
    assert (E : Timers.elapse h x = Timers.run cb x).
    { unfold Timers.elapse. rewrite IH1, Ht. cbn [find Timers.handle].
      now rewrite Nat.eqb_refl. }
    rewrite E.
    cbn [Timers.run Timers.timers Timers.next_handle Timers.app].
    rewrite cb_requests, IH3.
    split; [exact IH1 | split; [exact IH2 |]].
    rewrite <- app_assoc. f_equal.
    clear. induction n as [| n IH]; cbn.
    + now rewrite app_nil_r.
    + rewrite <- app_assoc. now rewrite IH.
Qed.

(** Once the interval is cleared, its delay passes without effect. *)
Lemma elapse_after_clear (h : nat) (m : nat) (p : Timers.page St) :
  Nat.iter m (Timers.elapse h) (Timers.clearInterval h p)
  = Timers.clearInterval h p.
Proof.
  induction m as [| m IH]; [reflexivity |].
  rewrite Nat.iter_succ, IH. unfold Timers.elapse.
  cbn [Timers.clearInterval Timers.timers]. now rewrite find_cleared.
Qed.

(** The shape of the effect of a polling component: one run of the
    callback, an interval on it, and the cleanup that clears it. *)
Lemma polling_life (ms : Z) (ticks late : nat) (p : Timers.page St) :
  Timers.fresh_handles p ->
  let p1 := Timers.run cb p in
  let h := fst (Timers.setInterval cb ms p1) in
  let p2 := snd (Timers.setInterval cb ms p1) in
  let q := Nat.iter late (Timers.elapse h)
             (Timers.clearInterval h (Nat.iter ticks (Timers.elapse h) p2)) in
  network (Timers.app q)
  = (network (Timers.app p) ++ concat (repeat cycle (S ticks)))%list
  /\ Timers.timers q = Timers.timers p.
Proof.
  intros Hf p1 h p2 q. subst q. rewrite elapse_after_clear.
  destruct (elapse_while_set h ms (Timers.timers p) ticks p2 eq_refl)
    as (H1 & H2 & H3).
  cbn [Timers.clearInterval Timers.app Timers.timers]. split.
  - rewrite H3. cbn. rewrite cb_requests, <- app_assoc. reflexivity.
  - rewrite H1. cbn. rewrite Nat.eqb_refl. cbn.
    apply filter_other_handles. exact Hf.
Qed.
End PollingFacts.

(** * More on the Dashboard *)

Section DashboardMore.
Variable BACKEND_URL : string.
Variable server : list request -> request -> promise value.
Variable logs_server : list request -> request -> promise (list SyncLogEntry).
Variable toLocaleString : value -> string.

Local Notation status_request := (Dashboard.status_request BACKEND_URL).
Local Notation logs_request := (Dashboard.logs_request BACKEND_URL).
Local Notation manual_request := (Dashboard.manual_request BACKEND_URL).
Local Notation fetchData :=
  (Dashboard.fetchData BACKEND_URL server logs_server).
Local Notation handleManualSync :=
  (Dashboard.handleManualSync BACKEND_URL server logs_server).
Local Notation click_manual_sync :=
  (Dashboard.click_manual_sync BACKEND_URL server logs_server toLocaleString).
Local Notation render := (Dashboard.render toLocaleString).
Local Notation render_log := (Dashboard.render_log toLocaleString).
Local Notation manual_sync_enabled :=
  (Dashboard.manual_sync_enabled toLocaleString).

Ltac dash :=
  unfold Dashboard.fetchData, Dashboard.handleManualSync,
    Dashboard.setSyncStatus, Dashboard.setRecentLogs, Dashboard.setSyncing,
    Dashboard.setAlert, Dashboard.setLoading,
    exec, bind, ret, throw, try_catch, try_finally, modify, console_error,
    axios, await, prop, promise_all in *;
  cbn [fst snd view network console data
       Dashboard.syncStatus Dashboard.recentLogs Dashboard.syncing
       Dashboard.alert Dashboard.loading] in *.

Ltac dash_handler :=
  unfold Dashboard.handleManualSync, Dashboard.setSyncing,
    Dashboard.setAlert, exec, bind, ret, throw, try_catch, try_finally,
    modify, console_error, axios, await, prop;
  cbn [fst snd view network console data
       Dashboard.syncStatus Dashboard.recentLogs Dashboard.syncing
       Dashboard.alert Dashboard.loading].

(** X1.  A fetch cycle never throws: whatever the two requests come to, it
    has issued exactly the status request and the recent-logs request, in
    this order, the page is out of its loading state, the banner and the
    [syncing] flag are as before, and the console has at most one more
    line, the report of the failure. *)
Theorem fetch_cycle_always_completes (w : world Dashboard.state) :
  exists w',
    fetchData w = (Ok tt, w')
    /\ network w' = (network w ++ [status_request; logs_request])%list
    /\ Dashboard.loading (view w') = false
    /\ Dashboard.alert (view w') = Dashboard.alert (view w)
    /\ Dashboard.syncing (view w') = Dashboard.syncing (view w)
    /\ (console w' = console w
        \/ exists e,
             console w' = (console w ++ [("Error fetching data:", e)])%list).
Proof.
  dash.
  destruct (server (network w) _) as [a | e];
    try destruct (logs_server _ _) as [b | e'];
    cbn; eexists; (split; [reflexivity |]); cbn;
    rewrite <- app_assoc; repeat split; eauto.
Qed.

(** X2.  When both requests of a cycle resolve, the state of the view is
    the two bodies as they came, out of loading, with the banner and the
    [syncing] flag of before; nothing goes to the console. *)
Theorem fetch_cycle_success_state (w : world Dashboard.state) st lg :
  server (network w) status_request = Resolved st ->
  logs_server (network w ++ [status_request])%list logs_request
    = Resolved lg ->
  let w' := exec fetchData w in
  view w' = {| Dashboard.syncStatus := data st;
               Dashboard.recentLogs := data lg;
               Dashboard.syncing := Dashboard.syncing (view w);
               Dashboard.alert := Dashboard.alert (view w);
               Dashboard.loading := false |}
  /\ console w' = console w.
Proof.
  intros Hs Hl. dash. rewrite Hs, Hl. cbn. auto.
Qed.

(** X3.  When the first fetch cycle of a freshly mounted Dashboard fails,
    the page does not stay on "Loading...": it shows the placeholders of an
    unknown status ("Never", "Not scheduled", "Ready"), the empty state of
    the log list, no banner, and the manual-sync control enabled. *)
Theorem first_cycle_failure_shows_placeholders
    (history : list request) (log : list (string * error)) :
  let w := {| view := Dashboard.initial; network := history;
              console := log |} in
  is_rejected (server history status_request) = true
  \/ is_rejected
       (logs_server (history ++ [status_request])%list logs_request) = true ->
  render (view (exec fetchData w))
  = Dashboard.LoadedPage
      {| Dashboard.banner := None;
         Dashboard.last_sync := "Never";
         Dashboard.last_sync_badge := VStr "Never";
         Dashboard.next_sync := VStr "Not scheduled";
         Dashboard.running_badge := "Ready";
         Dashboard.manual_sync_disabled := false;
         Dashboard.manual_sync_label := "Start Manual Sync";
         Dashboard.recent := Dashboard.EmptyState "No sync logs yet" |}.
Proof.
  intros w H. subst w. dash.
  destruct (server history _) as [a | e];
    try destruct (logs_server _ _) as [b | e'];
    cbn in *; try (destruct H; discriminate); reflexivity.
Qed.

(** X4.  The manual-sync handler never throws: whichever way the requests
    it sends settle, it ends with the [syncing] flag down and with the
    alert set, to an alert of kind success or error. *)
Theorem manual_sync_never_throws (w : world Dashboard.state) :
  exists w' a,
    handleManualSync w = (Ok tt, w')
    /\ Dashboard.syncing (view w') = false
    /\ Dashboard.alert (view w') = Some a
    /\ (alert_type a = "success" \/ alert_type a = "error").
Proof.
  destruct (server (network w) manual_request) as [r | e] eqn:Hp.
  - destruct (nullish (data r)) eqn:Hd;
      [| destruct (nullish (opt_prop (data r) "result")) eqn:Hr].
    + dash_handler. rewrite Hp. cbn. rewrite Hd. cbn.
      do 2 eexists. split; [reflexivity |]. cbn. auto.
    + dash_handler. rewrite Hp. cbn. rewrite Hd. cbn. rewrite Hr. cbn.
      do 2 eexists. split; [reflexivity |]. cbn. auto.
    + destruct (handleManualSync_resolved BACKEND_URL server logs_server
                  w r Hp Hd Hr) as (w' & E & _ & Ha & Hs & _).
      exists w'. eexists. rewrite E, Ha. cbn. auto.
  - destruct (handleManualSync_rejected BACKEND_URL server logs_server
                w e Hp) as (w' & E & _ & Ha & Hs & _).
    exists w'. eexists. rewrite E, Ha. cbn. auto.
Qed.

(** X5.  A manual sync that is answered [2xx] with a body that has no
    [result] (or with no body) is reported as a failure: the generic error
    banner, the [TypeError] on the console, no refresh (the [POST] is the
    only request), and the status and logs on display as before. *)
Theorem manual_sync_without_result_is_an_error
    (w : world Dashboard.state) r :
  server (network w) manual_request = Resolved r ->
  nullish (data r) = true \/ nullish (opt_prop (data r) "result") = true ->
  let w' := exec handleManualSync w in
  network w' = (network w ++ [manual_request])%list
  /\ Dashboard.alert (view w')
     = Some {| alert_type := "error";
               alert_message :=
                 VStr "Sync failed. Please check your settings and try again." |}
  /\ Dashboard.syncStatus (view w') = Dashboard.syncStatus (view w)
  /\ Dashboard.recentLogs (view w') = Dashboard.recentLogs (view w)
  /\ Dashboard.syncing (view w') = false
  /\ exists msg, console w' = (console w ++ [("Sync error:", TypeError msg)])%list.
Proof.
  intros Hp H. dash_handler. rewrite Hp. cbn.
  destruct (nullish (data r)) eqn:Hd; cbn.
  - repeat split; eauto.
  - destruct H as [H | H]; [discriminate |]. rewrite H. cbn.
    repeat split; eauto.
Qed.

(** X6.  A manual sync whose request is rejected leaves the status and the
    logs on display as they were, does not touch the loading state, and
    logs the very error it received. *)
Theorem manual_sync_rejection_keeps_display (w : world Dashboard.state) e :
  server (network w) manual_request = Rejected e ->
  let w' := exec handleManualSync w in
  Dashboard.syncStatus (view w') = Dashboard.syncStatus (view w)
  /\ Dashboard.recentLogs (view w') = Dashboard.recentLogs (view w)
  /\ Dashboard.loading (view w') = Dashboard.loading (view w)
  /\ console w' = (console w ++ [("Sync error:", e)])%list.
Proof.
  intros Hp. dash_handler. rewrite Hp. cbn. auto.
Qed.

(** X7.  The manual-sync control can be clicked exactly when the page is
    loaded, no sync of this view is in flight and the status on display is
    not running; a click in any other state sends nothing and changes
    nothing. *)
Theorem manual_sync_enabled_iff (w : world Dashboard.state) :
  (manual_sync_enabled (view w) = true
   <-> Dashboard.loading (view w) = false
       /\ Dashboard.syncing (view w) = false
       /\ truthy (opt_prop (Dashboard.syncStatus (view w)) "is_running")
          = false)
  /\ (manual_sync_enabled (view w) = false ->
      click_manual_sync w = (Ok tt, w)).
Proof.
  split.
  - unfold Dashboard.manual_sync_enabled, Dashboard.render, Dashboard.busy,
      js_or.
    destruct (Dashboard.loading (view w)); cbn.
    + split; [discriminate | intros (H & _); discriminate].
    + destruct (Dashboard.syncing (view w)); cbn.
      * split; [discriminate | intros (_ & H & _); discriminate].
      * destruct (truthy (opt_prop _ "is_running")); cbn;
          (split; [intros H; try discriminate; auto
                  | intros (_ & _ & H); try discriminate; auto]).
  - intros H. unfold Dashboard.click_manual_sync. now rewrite H.
Qed.

(** A row of the list of recent logs, field by field. *)
Lemma recent_log_row (log : SyncLogEntry) :
  let row := render_log log in
  Dashboard.row_key row = id log
  /\ Dashboard.row_type row = sync_type log
  /\ Dashboard.row_badge row = status log
  /\ Dashboard.row_badge_class row = getStatusClass (status log)
  /\ Dashboard.row_time row
     = Dashboard.formatDate toLocaleString (VStr (timestamp log))
  /\ Dashboard.row_message row = message log
  /\ (Dashboard.row_stats row = None <-> status log <> "success")
  /\ forall figures,
       Dashboard.row_stats row = Some figures ->
       (In (payments_synced log, "payments synced") figures
        <-> (0 < payments_synced log)%Z)
       /\ firstn 3 figures
          = [(invoices_processed log, "processed");
             (invoices_created log, "created");
             (clients_created log, "new clients")]
       /\ length figures <= 4.
Proof.
  unfold Dashboard.render_log. cbn.
  do 6 (split; [reflexivity |]).
  destruct (status log =? "success") eqn:E.
  - apply String.eqb_eq in E. split.
    + split; [discriminate | intros H; contradiction].
    + intros figures H. injection H as <-.
      destruct (payments_synced log >? 0)%Z eqn:P; cbn.
      * split; [| split; [reflexivity | lia]].
        split; [intros _; lia | intros _; auto 6].
      * split; [| split; [reflexivity | lia]].
        split; [| intros; lia].
        intros [H | [H | [H | []]]]; discriminate H.
  - apply String.eqb_neq in E. split.
    + split; [intros _; exact E | reflexivity].
    + intros figures H. discriminate H.
Qed.

(** X8.  On the loaded Dashboard page the list of recent logs is the empty
    state when the state holds no log; otherwise it has one row per entry
    of the state, the i-th row made from the i-th entry: keyed by its id,
    with its type, status, date and message, with figures exactly when the
    status is [success], the payments figure among them exactly when
    [payments_synced] is positive. *)
Theorem recent_log_rows (s : Dashboard.state) :
  Dashboard.loading s = false ->
  exists p,
    render s = Dashboard.LoadedPage p
    /\ (Dashboard.recentLogs s = [] ->
        Dashboard.recent p = Dashboard.EmptyState "No sync logs yet")
    /\ (Dashboard.recentLogs s <> [] ->
        exists rows,
          Dashboard.recent p = Dashboard.LogRows rows
          /\ length rows = length (Dashboard.recentLogs s)
          /\ forall i log,
               nth_error (Dashboard.recentLogs s) i = Some log ->
               exists row,
                 nth_error rows i = Some row
                 /\ Dashboard.row_key row = id log
                 /\ Dashboard.row_type row = sync_type log
                 /\ Dashboard.row_badge row = status log
                 /\ Dashboard.row_badge_class row
                    = getStatusClass (status log)
                 /\ Dashboard.row_time row
                    = Dashboard.formatDate toLocaleString
                        (VStr (timestamp log))
                 /\ Dashboard.row_message row = message log
                 /\ (Dashboard.row_stats row = None
                     <-> status log <> "success")
                 /\ forall figures,
                      Dashboard.row_stats row = Some figures ->
                      (In (payments_synced log, "payments synced") figures
                       <-> (0 < payments_synced log)%Z)
                      /\ firstn 3 figures
                         = [(invoices_processed log, "processed");
                            (invoices_created log, "created");
                            (clients_created log, "new clients")]
                      /\ length figures <= 4).
Proof.
  intros Hl. unfold Dashboard.render. rewrite Hl.
  eexists. split; [reflexivity |]. cbn [Dashboard.recent]. split.
  - intros ->. reflexivity.
  - intros Hne.
    destruct (Dashboard.recentLogs s) as [| l0 ls] eqn:E;
      [contradiction |].
    cbn [length Nat.eqb]. eexists. split; [reflexivity |].
    split; [apply length_map |].
    intros i log Hi. exists (render_log log). split.
    + rewrite nth_error_map, Hi. reflexivity.
    + apply recent_log_row.
Qed.

(** X9.  The Dashboard fetches once when it is mounted and once each time
    its 10-second interval elapses: after [ticks] elapses it has issued
    [ticks + 1] cycles of the two requests.  The cleanup clears the
    interval: no request is issued after the unmount, however often the
    delay passes, and the timers of the page are those of before the
    mount. *)
Theorem dashboard_polls_until_unmounted
    (ticks late : nat) (p : Timers.page Dashboard.state) :
  Timers.fresh_handles p ->
  let mounted := fst (DashboardPolling.useEffect BACKEND_URL server
                        logs_server p) in
  let q := DashboardPolling.life BACKEND_URL server logs_server
             ticks late p in
  Timers.timers mounted
  = {| Timers.handle := Timers.next_handle p;
       Timers.delay := 10000;
       Timers.callback := fetchData |} :: Timers.timers p
  /\ network (Timers.app q)
     = (network (Timers.app p)
          ++ concat (repeat [status_request; logs_request] (S ticks)))%list
  /\ Timers.timers q = Timers.timers p.
Proof.
  intros Hf mounted q. split; [reflexivity |].
  apply (polling_life fetchData [status_request; logs_request]); [| exact Hf].
  intros w.
  destruct (fetchData_frame BACKEND_URL server logs_server w)
    as (w' & E & Hn & _).
  unfold exec. now rewrite E.
Qed.
End DashboardMore.

(** * More on the Logs view *)

Section LogsMore.
Variable BACKEND_URL : string.
Variable logs_server : list request -> request -> promise (list SyncLogEntry).
Variable toLocaleString : value -> string.

Local Notation logs_request := (Logs.logs_request BACKEND_URL).
Local Notation fetchLogs := (Logs.fetchLogs BACKEND_URL logs_server).
Local Notation render := (Logs.render toLocaleString).
Local Notation render_log := (Logs.render_log toLocaleString).

Ltac logs_step :=
  unfold Logs.fetchLogs, Logs.setLogs, Logs.setLoading,
    exec, bind, ret, throw, try_catch, modify, console_error, axios, await;
  cbn [fst snd view network console data Logs.logs Logs.loading].

Lemma fetchLogs_one_request (w : world Logs.state) :
  network (exec fetchLogs w) = (network w ++ [logs_request])%list.
Proof.
  logs_step. destruct (logs_server (network w) _); reflexivity.
Qed.

Lemma numbered_items {A : Type} (l : list A) (start : nat) :
  map snd (combine (seq start (length l)) l) = l
  /\ map fst (combine (seq start (length l)) l) = seq start (length l).
Proof.
  revert start. induction l as [| a l IH]; intros start; cbn.
  - auto.
  - destruct (IH (S start)) as [H1 H2]. now rewrite H1, H2.
Qed.

(** X10.  A fetch of the logs that is rejected never throws: the list on
    display stays as it was, the page is out of its loading state, the one
    request has gone out and the error is on the console. *)
Theorem fetchLogs_rejection_is_contained (w : world Logs.state) e :
  logs_server (network w) logs_request = Rejected e ->
  exists w',
    fetchLogs w = (Ok tt, w')
    /\ Logs.logs (view w') = Logs.logs (view w)
    /\ Logs.loading (view w') = false
    /\ network w' = (network w ++ [logs_request])%list
    /\ console w' = (console w ++ [("Error fetching logs:", e)])%list.
Proof.
  intros Hp. logs_step. rewrite Hp. cbn.
  eexists. split; [reflexivity |]. cbn. auto.
Qed.

(** X11.  When the first fetch of a freshly mounted Logs view fails, the
    page shows the empty state, the same as for a server without logs. *)
Theorem first_logs_failure_shows_empty_state
    (history : list request) (log : list (string * error)) e :
  let w := {| view := Logs.initial; network := history; console := log |} in
  logs_server history logs_request = Rejected e ->
  render (view w) = Logs.LoadingPage
  /\ render (view (exec fetchLogs w))
     = Logs.LoadedPage (Logs.EmptyState "No sync logs yet").
Proof.
  intros w Hp. subst w. split; [reflexivity |].
  unfold Logs.render. logs_step. rewrite Hp. reflexivity.
Qed.

(** X12.  A row of the Logs view lists errors exactly when its entry has a
    non-empty [errors] sequence; the items are then the error strings of
    the entry, in their order, keyed by their index from 0. *)
Theorem log_row_errors (log : SyncLogEntry) :
  (Logs.row_errors (render_log log) = None
   <-> errors log = None \/ errors log = Some [])
  /\ forall items,
       Logs.row_errors (render_log log) = Some items ->
       exists errs,
         errors log = Some errs
         /\ errs <> []
         /\ map snd items = errs
         /\ map fst items = seq 0 (length errs).
Proof.
  unfold Logs.render_log. cbn [Logs.row_errors].
  destruct (errors log) as [[| e errs] |]; cbn.
  - split; [split; auto |]. intros items H. discriminate H.
  - split.
    + split; [discriminate | intros [H | H]; discriminate H].
    + intros items H. injection H as <-. exists (e :: errs).
      split; [reflexivity | split; [discriminate |]].
      destruct (numbered_items errs 1) as [H1 H2].
      cbn. now rewrite H1, H2.
  - split; [split; auto |]. intros items H. discriminate H.
Qed.

(** X13.  The Logs view fetches once when it is mounted and once each time
    its 15-second interval elapses; the cleanup clears the interval, so
    that no request is issued after the unmount and the timers of the page
    are those of before the mount. *)
Theorem logs_polls_until_unmounted
    (ticks late : nat) (p : Timers.page Logs.state) :
  Timers.fresh_handles p ->
  let mounted := fst (LogsPolling.useEffect BACKEND_URL logs_server p) in
  let q := LogsPolling.life BACKEND_URL logs_server ticks late p in
  Timers.timers mounted
  = {| Timers.handle := Timers.next_handle p;
       Timers.delay := 15000;
       Timers.callback := fetchLogs |} :: Timers.timers p
  /\ network (Timers.app q)
     = (network (Timers.app p)
          ++ concat (repeat [logs_request] (S ticks)))%list
  /\ Timers.timers q = Timers.timers p.
Proof.
  intros Hf mounted q. split; [reflexivity |].
  apply (polling_life fetchLogs [logs_request]); [| exact Hf].
  apply fetchLogs_one_request.
Qed.
End LogsMore.

(** X14.  [getStatusClass] tells the three known statuses apart and sends
    every other status to the warning class. *)
Theorem getStatusClass_cases (status : string) :
  (getStatusClass status = "status-success" <-> status = "success")
  /\ (getStatusClass status = "status-error" <-> status = "error")
  /\ (getStatusClass status = "status-running" <-> status = "running")
  /\ (getStatusClass status = "status-warning"
      <-> status <> "success" /\ status <> "error" /\ status <> "running").
Proof.
  unfold getStatusClass.
  destruct (status =? "success") eqn:E1;
    [apply String.eqb_eq in E1; subst; cbn;
     repeat split; try discriminate; try reflexivity;
     intros (H & _); contradiction |].
  destruct (status =? "error") eqn:E2;
    [apply String.eqb_eq in E2; subst; cbn;
     repeat split; try discriminate; try reflexivity;
     intros (_ & H & _); contradiction |].
  destruct (status =? "running") eqn:E3;
    [apply String.eqb_eq in E3; subst; cbn;
     repeat split; try discriminate; try reflexivity;
     intros (_ & _ & H); contradiction |].
  apply String.eqb_neq in E1, E2, E3.
  repeat split; try discriminate; try assumption;
    intros H; contradiction.
Qed.

(** * More on the Settings view *)

Section SettingsMore.
Variable BACKEND_URL : string.
Variable server : list request -> request -> promise value.

Local Notation credentials_request :=
  (Settings.credentials_request BACKEND_URL).
Local Notation authorize_request := (Settings.authorize_request BACKEND_URL).
Local Notation save_request c :=
  (POST (Settings.API BACKEND_URL ++ "/settings/credentials") (Some c)).
Local Notation disconnect_request :=
  (POST (Settings.API BACKEND_URL ++ "/oauth/freeagent/disconnect") None).
Local Notation fetchCredentials :=
  (Settings.fetchCredentials BACKEND_URL server).
Local Notation useEffect := (Settings.useEffect BACKEND_URL server).
Local Notation visit := (Settings.visit BACKEND_URL server).
Local Notation refresh := (Settings.refresh BACKEND_URL server).
Local Notation handleSubmit := (Settings.handleSubmit BACKEND_URL server).
Local Notation handleConnectFreeAgent :=
  (Settings.handleConnectFreeAgent BACKEND_URL server).
Local Notation handleDisconnectFreeAgent :=
  (Settings.handleDisconnectFreeAgent BACKEND_URL server).

Ltac runtime :=
  unfold exec, bind, ret, throw, try_catch, try_finally, modify, gets,
    console_error, axios, await, prop in *;
  cbn [fst snd view network console data
       Settings.credentials Settings.loading Settings.saving
       Settings.connecting Settings.disconnecting Settings.isConnected
       Settings.alert Settings.address Settings.href] in *.

Ltac setters :=
  unfold Settings.setCredentials, Settings.setLoading, Settings.setSaving,
    Settings.setConnecting, Settings.setDisconnecting,
    Settings.setIsConnected, Settings.setAlert, Settings.replaceState,
    Settings.set_location_href in *.

Ltac load :=
  unfold Settings.visit, Settings.refresh, Settings.mount,
    Settings.useEffect, Settings.fetchCredentials,
    Settings.fetchCredentials_start, Settings.fetchCredentials_resume,
    Settings.oauth_callback in *;
  setters; runtime.

(** A load of the credentials never throws, sends its one request, takes
    the page out of loading and touches neither the banner nor the flags of
    the other actions nor the browser. *)
Lemma fetchCredentials_frame (w : world Settings.state) :
  exists w',
    fetchCredentials w = (Ok tt, w')
    /\ network w' = (network w ++ [credentials_request])%list
    /\ Settings.loading (view w') = false
    /\ Settings.alert (view w') = Settings.alert (view w)
    /\ Settings.saving (view w') = Settings.saving (view w)
    /\ Settings.address (view w') = Settings.address (view w)
    /\ Settings.href (view w') = Settings.href (view w).
Proof.
  load. destruct (server (network w) _) as [r | e]; cbn.
  - destruct (truthy (data r)); cbn; eexists;
      (split; [reflexivity |]); cbn; auto 10.
  - eexists. split; [reflexivity |]. cbn. auto 10.
Qed.

(** X15.  Typing into an input of the form sets the field of that input to
    the text typed and leaves the four other fields as they were; it sends
    nothing and touches neither the banner nor the connection state. *)
Theorem handleChange_sets_one_field
    (w : world Settings.state) (name : Settings.field) (text : string) :
  let w' := exec (Settings.handleChange name text) w in
  SettingsForm.field_value name (Settings.credentials (view w')) = VStr text
  /\ (forall other,
        SettingsForm.field_eqb other name = false ->
        SettingsForm.field_value other (Settings.credentials (view w'))
        = SettingsForm.field_value other (Settings.credentials (view w)))
  /\ network w' = network w
  /\ Settings.alert (view w') = Settings.alert (view w)
  /\ Settings.isConnected (view w') = Settings.isConnected (view w)
  /\ Settings.loading (view w') = Settings.loading (view w).
Proof.
  unfold Settings.handleChange. setters. runtime.
  split; [destruct name; reflexivity |].
  split; [| auto].
  intros other H. destruct name, other; try discriminate H; reflexivity.
Qed.

(** X16.  A save that the server accepts sends the credentials of the form
    as they are, then reloads them: two requests, the [POST] with the form
    and the [GET].  The handler does not throw; it ends with the success
    banner, whatever the reload comes to, with the [saving] flag down and
    the page out of loading. *)
Theorem handleSubmit_accepted (w : world Settings.state) r :
  server (network w) (save_request (Settings.credentials (view w)))
    = Resolved r ->
  exists w',
    handleSubmit w = (Ok tt, w')
    /\ network w'
       = (network w ++ [save_request (Settings.credentials (view w));
                        credentials_request])%list
    /\ Settings.alert (view w')
       = Some {| alert_type := "success";
                 alert_message := VStr "Credentials saved successfully!" |}
    /\ Settings.saving (view w') = false
    /\ Settings.loading (view w') = false.
Proof.
  intros Hp. unfold Settings.handleSubmit. setters. runtime.
  rewrite Hp. cbn.
  match goal with
  | |- context [Settings.fetchCredentials _ _ ?x] =>
      destruct (fetchCredentials_frame x) as (w2 & E & Hn & Hl & Ha & _)
  end.
  rewrite E. cbn in *. eexists. split; [reflexivity |]. cbn.
  rewrite Hn, <- app_assoc. auto.
Qed.

(** X17.  A save that the server rejects, made from the loaded page, leaves
    that page with the error banner and the save control enabled again: the
    banner reads the [detail] of the error body when that is a non-empty
    string, and "Failed to save credentials" when there is none.  The
    inputs show what was typed, secrets included, and the connection panel
    is as before; nothing is reloaded (the [POST] is the only request) and
    the error is on the console. *)
Theorem handleSubmit_rejected (w : world Settings.state) e p0 :
  Settings.render (view w) = Settings.LoadedPage p0 ->
  server (network w) (save_request (Settings.credentials (view w)))
    = Rejected e ->
  let w' := exec handleSubmit w in
  let page text :=
    Settings.LoadedPage
      {| Settings.banner :=
           Some {| alert_type := "error"; alert_message := VStr text |};
         Settings.inputs := Settings.credentials (view w);
         Settings.save_disabled := false;
         Settings.save_label := "Save Credentials";
         Settings.connection := Settings.connection p0 |} in
  network w'
  = (network w ++ [save_request (Settings.credentials (view w))])%list
  /\ console w' = (console w ++ [("Error saving credentials:", e)])%list
  /\ (forall Y,
        error_detail e = VStr Y -> Y <> "" ->
        Settings.render (view w') = page Y)
  /\ (truthy (error_detail e) = false ->
      Settings.render (view w') = page "Failed to save credentials").
Proof.
  intros Hr Hp. unfold Settings.render in Hr.
  destruct (Settings.loading (view w)) eqn:Hl; [discriminate |].
  injection Hr as <-.
  unfold Settings.handleSubmit. setters. runtime.
  rewrite Hp. cbn. split; [reflexivity | split; [reflexivity |]].
  unfold Settings.render. cbn. rewrite Hl. split.
  - intros Y HY Hne. rewrite HY. unfold js_or.
    now rewrite (truthy_nonempty _ Hne).
  - intros Hf. unfold js_or. now rewrite Hf.
Qed.

(** X18.  After a save that the server accepts and a reload that comes back
    with a body, the identifier and the two secrets that were typed are
    gone from the form: the URL and the client id are those of the body
    and the connection state is its [is_connected]. *)
Theorem handleSubmit_clears_secrets (w : world Settings.state) saved r :
  server (network w) (save_request (Settings.credentials (view w)))
    = Resolved saved ->
  server (network w ++ [save_request (Settings.credentials (view w))])%list
         credentials_request = Resolved r ->
  truthy (data r) = true ->
  let w' := exec handleSubmit w in
  Settings.credentials (view w')
  = {| whmcs_url := js_or (opt_prop (data r) "whmcs_url") (VStr "");
       whmcs_identifier := VStr "";
       whmcs_secret := VStr "";
       freeagent_client_id :=
         js_or (opt_prop (data r) "freeagent_client_id") (VStr "");
       freeagent_client_secret := VStr "" |}
  /\ Settings.isConnected (view w')
     = js_or (opt_prop (data r) "is_connected") (VBool false).
Proof.
  intros Hp Hg Ht. unfold Settings.handleSubmit. load.
  rewrite Hp. cbn. rewrite Hg. cbn. rewrite Ht. cbn. auto.
Qed.
(** X19.  When the authorize request comes back with a body, the window
    is sent to the [authorization_url] of the body ([undefined] when the
    body has none).  The [connecting] flag stays up, so the control stays
    disabled while the browser leaves the page; no banner is set and one
    request has gone out. *)
Theorem handleConnect_redirects (w : world Settings.state) r :
  server (network w) authorize_request = Resolved r ->
  nullish (data r) = false ->
  let w' := exec handleConnectFreeAgent w in
  Settings.href (view w') = Some (opt_prop (data r) "authorization_url")
  /\ Settings.connecting (view w') = true
  /\ Settings.connect_enabled (view w') = false
  /\ Settings.alert (view w') = None
  /\ network w' = (network w ++ [authorize_request])%list.
Proof.
  intros Hp Hd. unfold Settings.handleConnectFreeAgent. setters. runtime.
  rewrite Hp. cbn. rewrite Hd. cbn.
  repeat split.
  unfold Settings.connect_enabled, Settings.render. cbn.
  destruct (Settings.loading (view w)); [reflexivity |].
  destruct (truthy (Settings.isConnected (view w))); reflexivity.
Qed.

(** X20.  When the authorize request, made from the loaded page, is
    rejected, or is answered with a [null] body, the window stays where it
    is, the [connecting] flag goes down again and the page shows an error
    banner: the [detail] of the error body when that is a non-empty
    string, "Failed to initiate FreeAgent connection" when there is none
    and for the [null] body. *)
Theorem handleConnect_failure (w : world Settings.state) p0 :
  Settings.render (view w) = Settings.LoadedPage p0 ->
  let w' := exec handleConnectFreeAgent w in
  let failed text :=
    Settings.href (view w') = Settings.href (view w)
    /\ Settings.connecting (view w') = false
    /\ Settings.shown_banner (view w')
       = Some {| alert_type := "error"; alert_message := VStr text |} in
  (forall e Y,
      server (network w) authorize_request = Rejected e ->
      error_detail e = VStr Y -> Y <> "" ->
      failed Y)
  /\ (forall e,
        server (network w) authorize_request = Rejected e ->
        truthy (error_detail e) = false ->
        failed "Failed to initiate FreeAgent connection")
  /\ (forall r,
        server (network w) authorize_request = Resolved r ->
        nullish (data r) = true ->
        failed "Failed to initiate FreeAgent connection").
Proof.
  intros Hr. unfold Settings.render in Hr.
  destruct (Settings.loading (view w)) eqn:Hl; [discriminate |]. clear Hr.
  unfold Settings.shown_banner, Settings.render,
    Settings.handleConnectFreeAgent. setters. runtime.
  split; [| split].
  - intros e Y Hp HY Hne. rewrite Hp. cbn. rewrite Hl, HY. unfold js_or.
    now rewrite (truthy_nonempty _ Hne).
  - intros e Hp Hf. rewrite Hp. cbn. rewrite Hl. unfold js_or.
    now rewrite Hf.
  - intros r Hp Hd. rewrite Hp. cbn. rewrite Hd. cbn. rewrite Hl. auto.
Qed.

(** X21.  A disconnect request goes out only when the user has confirmed
    the dialog: when the dialog is declined, nothing is sent and the state
    of the view is untouched; when it is confirmed, exactly the disconnect
    request is sent, whatever its outcome, and the handler does not
    throw. *)
Theorem handleDisconnect_needs_confirmation
    (w : world Settings.state) (confirmed : bool) :
  exists w',
    handleDisconnectFreeAgent confirmed w = (Ok tt, w')
    /\ network w'
       = (network w ++ (if confirmed then [disconnect_request] else []))%list
    /\ (confirmed = false -> w' = w)
    /\ Settings.disconnecting (view w')
       = (if confirmed then false else Settings.disconnecting (view w)).
Proof.
  unfold Settings.handleDisconnectFreeAgent. setters. runtime.
  destruct confirmed; cbn.
  - destruct (server (network w) _) as [r | e]; cbn;
      eexists; (split; [reflexivity |]); cbn;
      (split; [reflexivity | split; [discriminate | reflexivity]]).
  - exists w. rewrite app_nil_r. auto.
Qed.

(** X22.  A confirmed disconnect that the server accepts ends with the
    view not connected, whatever the connection state was: the success
    banner is set, the form is untouched, and a loaded page shows the
    "Not Connected" panel with the connect control. *)
Theorem handleDisconnect_accepted (w : world Settings.state) r :
  server (network w) disconnect_request = Resolved r ->
  let w' := exec (handleDisconnectFreeAgent true) w in
  Settings.isConnected (view w') = VBool false
  /\ Settings.alert (view w')
     = Some {| alert_type := "success";
               alert_message :=
                 VStr "Disconnected from FreeAgent successfully" |}
  /\ Settings.credentials (view w') = Settings.credentials (view w)
  /\ (forall p, Settings.render (view w') = Settings.LoadedPage p ->
                exists disabled label,
                  Settings.connection p
                  = Settings.NotConnected disabled label).
Proof.
  intros Hp. unfold Settings.handleDisconnectFreeAgent. setters. runtime.
  cbn. rewrite Hp. cbn.
  split; [reflexivity | split; [reflexivity | split; [reflexivity |]]].
  intros p H. unfold Settings.render in H. cbn in H.
  destruct (Settings.loading (view w)); [discriminate |].
  injection H as <-. cbn. eauto.
Qed.

(** X23.  A confirmed disconnect that the server rejects, made from the
    page that shows the "Connected" panel, leaves the view connected: the
    page is as before but for the error banner, which reads the [detail]
    of the error body when that is a non-empty string and "Failed to
    disconnect" when there is none, and for the disconnect control, which
    is enabled again; the error is on the console. *)
Theorem handleDisconnect_rejected
    (w : world Settings.state) e p0 disabled label :
  Settings.render (view w) = Settings.LoadedPage p0 ->
  Settings.connection p0 = Settings.Connected disabled label ->
  server (network w) disconnect_request = Rejected e ->
  let w' := exec (handleDisconnectFreeAgent true) w in
  let page text :=
    Settings.LoadedPage
      {| Settings.banner :=
           Some {| alert_type := "error"; alert_message := VStr text |};
         Settings.inputs := Settings.inputs p0;
         Settings.save_disabled := Settings.save_disabled p0;
         Settings.save_label := Settings.save_label p0;
         Settings.connection :=
           Settings.Connected false "Disconnect from FreeAgent" |} in
  Settings.isConnected (view w') = Settings.isConnected (view w)
  /\ console w' = (console w ++ [("Error disconnecting:", e)])%list
  /\ (forall Y,
        error_detail e = VStr Y -> Y <> "" ->
        Settings.render (view w') = page Y)
  /\ (truthy (error_detail e) = false ->
      Settings.render (view w') = page "Failed to disconnect").
Proof.
  intros Hr Hc Hp. unfold Settings.render in Hr.
  destruct (Settings.loading (view w)) eqn:Hl; [discriminate |].
  injection Hr as <-. cbn in Hc.
  destruct (truthy (Settings.isConnected (view w))) eqn:Hi;
    [| discriminate].
  unfold Settings.handleDisconnectFreeAgent. setters. runtime.
  cbn. rewrite Hp. cbn. split; [reflexivity | split; [reflexivity |]].
  unfold Settings.render. cbn. rewrite Hl, Hi. split.
  - intros Y HY Hne. rewrite HY. unfold js_or.
    now rewrite (truthy_nonempty _ Hne).
  - intros Hf. unfold js_or. now rewrite Hf.
Qed.

(** X24.  A visit whose decoded query parameters have no [oauth], or have
    an [oauth] that is anything but [success] and [error], shows no banner
    and leaves the address, query string included, as it is. *)
Theorem oauth_other_values_ignored
    (addr : string) (sp : Settings.URLSearchParams)
    (history : list request) :
  Settings.searchParams_get sp "oauth" <> Some "success" ->
  Settings.searchParams_get sp "oauth" <> Some "error" ->
  let w' := visit addr sp history in
  Settings.shown_banner (view w') = None
  /\ Settings.alert (view w') = None
  /\ Settings.address (view w') = addr.
Proof.
  intros H1 H2.
  assert (E1 : Settings.strict_eq
                 (Settings.searchParams_get sp "oauth") "success" = false).
  { destruct (Settings.searchParams_get sp "oauth") as [st |];
      [| reflexivity].
    cbn. apply String.eqb_neq. congruence. }
  assert (E2 : Settings.strict_eq
                 (Settings.searchParams_get sp "oauth") "error" = false).
  { destruct (Settings.searchParams_get sp "oauth") as [st |];
      [| reflexivity].
    cbn. apply String.eqb_neq. congruence. }
  unfold Settings.shown_banner, Settings.render. load.
  rewrite E1, E2. cbn.
  destruct (server history _) as [r | e]; cbn;
    [destruct (truthy (data r)); cbn; auto | auto].
Qed.

(** X25.  A visit whose decoded query parameters have [oauth=error]
    rewrites the address to [/settings] as a visit with [oauth=success]
    does, so that a refresh of the page, whose address then has no
    parameters, shows no banner. *)
Theorem oauth_error_cleans_address
    (addr : string) (sp : Settings.URLSearchParams)
    (history : list request) :
  Settings.searchParams_get sp "oauth" = Some "error" ->
  let w' := visit addr sp history in
  Settings.address (view w') = "/settings"
  /\ Settings.query_of (Settings.address (view w')) = None
  /\ forall sp',
       Settings.parameters_of (Settings.address (view w')) sp' ->
       Settings.shown_banner (view (refresh sp' w')) = None.
Proof.
  intros H w'.
  assert (Ha : Settings.address (view w') = "/settings").
  { subst w'. load. rewrite H. cbn.
    destruct (server history _) as [r | e]; cbn;
      [destruct (truthy (data r)); reflexivity | reflexivity]. }
  split; [exact Ha | split; [now rewrite Ha |]].
  intros sp' Hp. unfold Settings.refresh.
  assert (Hs : sp' = []) by (inversion Hp; reflexivity).
  rewrite Hs. apply visit_without_oauth. reflexivity.
Qed.

(** X26.  When the credentials request of a visit whose decoded query
    parameters have no [oauth] is rejected, the page still leaves
    "Loading...": it shows the blank form, no banner, the "Not Connected"
    panel with the connect control disabled, and the error is on the
    console. *)
Theorem visit_load_failure_shows_blank_form
    (addr : string) (sp : Settings.URLSearchParams)
    (history : list request) e :
  Settings.searchParams_get sp "oauth" = None ->
  server history credentials_request = Rejected e ->
  let w' := visit addr sp history in
  Settings.render (view w')
  = Settings.LoadedPage
      {| Settings.banner := None;
         Settings.inputs := Settings.blank;
         Settings.save_disabled := false;
         Settings.save_label := "Save Credentials";
         Settings.connection :=
           Settings.NotConnected true "Connect to FreeAgent" |}
  /\ console w' = [("Error fetching credentials:", e)].
Proof.
  intros H Hp. unfold Settings.render. load. rewrite H. cbn.
  rewrite Hp. cbn. auto.
Qed.

(** X27.  The effect of the Settings view never throws and sends exactly
    one request, for the credentials, whatever the query parameters and
    whatever the answer; when the answer is there the page is out of its
    loading state. *)
Theorem useEffect_one_request
    (sp : Settings.URLSearchParams) (w : world Settings.state) :
  exists w',
    useEffect sp w = (Ok tt, w')
    /\ network w' = (network w ++ [credentials_request])%list
    /\ Settings.loading (view w') = false.
Proof.
  load.
  destruct (Settings.strict_eq _ "success");
    [| destruct (Settings.strict_eq _ "error")];
    cbn;
    (destruct (server (network w) _) as [r | e]; cbn;
     [destruct (truthy (data r)); cbn |];
     eexists; (split; [reflexivity |]); cbn; auto).
Qed.

(** X28.  After a load that comes back with a body, the connection panel
    follows the [is_connected] of the body, a body without [is_connected]
    counting as not connected; the connect control of the "Not Connected"
    panel is then disabled while a connect is in flight or when the body
    has no [freeagent_client_id], whatever had been typed into the form. *)
Theorem connection_panel_follows_server (w : world Settings.state) r :
  server (network w) credentials_request = Resolved r ->
  truthy (data r) = true ->
  exists p,
    Settings.render (view (exec fetchCredentials w)) = Settings.LoadedPage p
    /\ Settings.connection p
       = if truthy (opt_prop (data r) "is_connected")
         then Settings.Connected (Settings.disconnecting (view w))
                (if Settings.disconnecting (view w)
                 then "Disconnecting..." else "Disconnect from FreeAgent")
         else Settings.NotConnected
                (Settings.connecting (view w)
                 || negb (truthy (opt_prop (data r) "freeagent_client_id")))
                (if Settings.connecting (view w)
                 then "Connecting..." else "Connect to FreeAgent").
Proof.
  intros Hp Ht. unfold Settings.render. load. rewrite Hp. cbn.
  rewrite Ht. cbn. eexists. split; [reflexivity |]. cbn.
  unfold js_or, js_not.
  destruct (truthy (opt_prop (data r) "is_connected")) eqn:Ec; cbn.
  - now rewrite Ec.
  - destruct (truthy (opt_prop (data r) "freeagent_client_id")) eqn:Ei;
      cbn; [now rewrite Ei | reflexivity].
Qed.
End SettingsMore.

(** * The further statements on concrete servers *)

Lemma fetch_cycle_success_state_witness :
  let w' := exec (Dashboard.fetchData Scenario.backend_url
                    (Scenario.sync_succeeds "Imported 3 invoices")
                    (Scenario.logs_are [Scenario.a_log; Scenario.another_log]))
                 Cases.dashboard_mounted in
  (Scenario.sync_succeeds "Imported 3 invoices"
     (network Cases.dashboard_mounted)
     (Dashboard.status_request Scenario.backend_url)
   = Resolved {| data := Scenario.idle_status |}
   /\ Scenario.logs_are [Scenario.a_log; Scenario.another_log]
        (network Cases.dashboard_mounted
           ++ [Dashboard.status_request Scenario.backend_url])%list
        (Dashboard.logs_request Scenario.backend_url)
      = Resolved {| data := [Scenario.a_log; Scenario.another_log] |})
  /\ view w'
     = {| Dashboard.syncStatus := Scenario.idle_status;
          Dashboard.recentLogs := [Scenario.a_log; Scenario.another_log];
          Dashboard.syncing := false;
          Dashboard.alert := None;
          Dashboard.loading := false |}
  /\ console w' = [].
Proof.
  intros w'. split; [split; reflexivity |].
  apply (fetch_cycle_success_state
           Scenario.backend_url
           (Scenario.sync_succeeds "Imported 3 invoices")
           (Scenario.logs_are [Scenario.a_log; Scenario.another_log])
           Cases.dashboard_mounted
           {| data := Scenario.idle_status |}
           {| data := [Scenario.a_log; Scenario.another_log] |});
    reflexivity.
Defined.

Lemma first_cycle_failure_shows_placeholders_witness :
  (is_rejected (Cases.unreachable (D := value) []
                  (Dashboard.status_request Scenario.backend_url)) = true
   \/ is_rejected (Scenario.logs_are [Scenario.a_log]
                     ([] ++ [Dashboard.status_request Scenario.backend_url])%list
                     (Dashboard.logs_request Scenario.backend_url)) = true)
  /\ Dashboard.manual_sync_enabled Scenario.show_date
       (view (exec (Dashboard.fetchData Scenario.backend_url
                      Cases.unreachable (Scenario.logs_are [Scenario.a_log]))
                   Cases.dashboard_mounted)) = true
  /\ Dashboard.render Scenario.show_date
       (view (exec (Dashboard.fetchData Scenario.backend_url
                      Cases.unreachable (Scenario.logs_are [Scenario.a_log]))
                   Cases.dashboard_mounted))
     = Dashboard.LoadedPage
         {| Dashboard.banner := None;
            Dashboard.last_sync := "Never";
            Dashboard.last_sync_badge := VStr "Never";
            Dashboard.next_sync := VStr "Not scheduled";
            Dashboard.running_badge := "Ready";
            Dashboard.manual_sync_disabled := false;
            Dashboard.manual_sync_label := "Start Manual Sync";
            Dashboard.recent := Dashboard.EmptyState "No sync logs yet" |}.
Proof.
  split; [left; reflexivity | split; [reflexivity |]].
  apply (first_cycle_failure_shows_placeholders
           Scenario.backend_url Cases.unreachable
           (Scenario.logs_are [Scenario.a_log]) Scenario.show_date [] []).
  left. reflexivity.
Defined.

Lemma manual_sync_without_result_is_an_error_witness :
  let r := {| data := VObj [("status", VStr "queued")] |} in
  let w' := exec (Dashboard.handleManualSync Scenario.backend_url
                    Cases.sync_without_result
                    (Scenario.logs_are [Scenario.another_log]))
                 Scenario.dashboard_loaded in
  (Cases.sync_without_result (network Scenario.dashboard_loaded)
     (Dashboard.manual_request Scenario.backend_url) = Resolved r
   /\ (nullish (data r) = true
       \/ nullish (opt_prop (data r) "result") = true))
  /\ network w' = [POST "http://localhost:8001/api/sync/manual" None]
  /\ Dashboard.alert (view w')
     = Some {| alert_type := "error";
               alert_message :=
                 VStr "Sync failed. Please check your settings and try again." |}
  /\ Dashboard.syncStatus (view w') = Scenario.idle_status
  /\ Dashboard.recentLogs (view w') = [Scenario.a_log]
  /\ Dashboard.syncing (view w') = false
  /\ exists msg, console w' = [("Sync error:", TypeError msg)].
Proof.
  intros r w'. split; [split; [reflexivity | right; reflexivity] |].
  apply (manual_sync_without_result_is_an_error
           Scenario.backend_url Cases.sync_without_result
           (Scenario.logs_are [Scenario.another_log])
           Scenario.dashboard_loaded r);
    [reflexivity | right; reflexivity].
Defined.

Lemma manual_sync_rejection_keeps_display_witness :
  let e := AxiosError
             (Some {| data := VObj [("detail",
                                     VStr "WHMCS credentials not configured")] |}) in
  let w' := exec (Dashboard.handleManualSync Scenario.backend_url
                    (Scenario.sync_fails "WHMCS credentials not configured")
                    (Scenario.logs_are [Scenario.another_log]))
                 Scenario.dashboard_loaded in
  Scenario.sync_fails "WHMCS credentials not configured"
    (network Scenario.dashboard_loaded)
    (Dashboard.manual_request Scenario.backend_url) = Rejected e
  /\ Dashboard.syncStatus (view w') = Scenario.idle_status
  /\ Dashboard.recentLogs (view w') = [Scenario.a_log]
  /\ Dashboard.loading (view w') = false
  /\ console w' = [("Sync error:", e)].
Proof.
  intros e w'. split; [reflexivity |].
  apply (manual_sync_rejection_keeps_display
           Scenario.backend_url
           (Scenario.sync_fails "WHMCS credentials not configured")
           (Scenario.logs_are [Scenario.another_log])
           Scenario.dashboard_loaded e).
  reflexivity.
Defined.

Lemma recent_log_rows_witness :
  let s := {| Dashboard.syncStatus := Scenario.idle_status;
              Dashboard.recentLogs := [Scenario.a_log; Scenario.another_log];
              Dashboard.syncing := false;
              Dashboard.alert := None;
              Dashboard.loading := false |} in
  Dashboard.loading s = false
  /\ exists p rows first second,
       Dashboard.render Scenario.show_date s = Dashboard.LoadedPage p
       /\ Dashboard.recent p = Dashboard.LogRows rows
       /\ length rows = 2
       /\ nth_error rows 0 = Some first
       /\ Dashboard.row_key first = "log-1"
       /\ nth_error rows 1 = Some second
       /\ Dashboard.row_key second = "log-0".
Proof.
  intros s. split; [reflexivity |].
  destruct (recent_log_rows Scenario.show_date s eq_refl)
    as (p & Hr & _ & Hrows).
  destruct Hrows as (rows & Hl & Hn & Hi); [discriminate |].
  destruct (Hi 0 Scenario.a_log eq_refl) as (first & H0 & K0 & _).
  destruct (Hi 1 Scenario.another_log eq_refl) as (second & H1 & K1 & _).
  exists p, rows, first, second. auto 10.
Defined.

Lemma dashboard_polls_until_unmounted_witness :
  let p := Timers.opened Cases.dashboard_mounted in
  let q := DashboardPolling.life Scenario.backend_url
             (Scenario.sync_succeeds "Imported 3 invoices")
             (Scenario.logs_are [Scenario.a_log]) 2 3 p in
  Timers.fresh_handles p
  /\ network (Timers.app q)
     = [GET "http://localhost:8001/api/sync/status";
        GET "http://localhost:8001/api/sync/logs?limit=5";
        GET "http://localhost:8001/api/sync/status";
        GET "http://localhost:8001/api/sync/logs?limit=5";
        GET "http://localhost:8001/api/sync/status";
        GET "http://localhost:8001/api/sync/logs?limit=5"]
  /\ Timers.timers q = [].
Proof.
  intros p q. split; [constructor |].
  apply (dashboard_polls_until_unmounted
           Scenario.backend_url
           (Scenario.sync_succeeds "Imported 3 invoices")
           (Scenario.logs_are [Scenario.a_log]) 2 3 p).
  constructor.
Defined.

Lemma fetchLogs_rejection_is_contained_witness :
  let w := {| view := {| Logs.logs := [Scenario.a_log];
                         Logs.loading := false |};
              network := []; console := [] |} in
  Cases.unreachable (D := list SyncLogEntry)
    (network w) (Logs.logs_request Scenario.backend_url)
  = Rejected (AxiosError None)
  /\ exists w',
       Logs.fetchLogs Scenario.backend_url Cases.unreachable w = (Ok tt, w')
       /\ Logs.logs (view w') = [Scenario.a_log]
       /\ Logs.loading (view w') = false
       /\ network w' = [GET "http://localhost:8001/api/sync/logs?limit=100"]
       /\ console w' = [("Error fetching logs:", AxiosError None)].
Proof.
  intros w. split; [reflexivity |].
  apply (fetchLogs_rejection_is_contained
           Scenario.backend_url Cases.unreachable w (AxiosError None)).
  reflexivity.
Defined.

Lemma first_logs_failure_shows_empty_state_witness :
  Cases.unreachable (D := list SyncLogEntry) []
    (Logs.logs_request Scenario.backend_url) = Rejected (AxiosError None)
  /\ Logs.render Scenario.show_date (view Scenario.logs_mounted)
     = Logs.LoadingPage
  /\ Logs.render Scenario.show_date
       (view (exec (Logs.fetchLogs Scenario.backend_url Cases.unreachable)
                   Scenario.logs_mounted))
     = Logs.LoadedPage (Logs.EmptyState "No sync logs yet").
Proof.
  split; [reflexivity |].
  apply (first_logs_failure_shows_empty_state
           Scenario.backend_url Cases.unreachable Scenario.show_date
           [] [] (AxiosError None)).
  reflexivity.
Defined.

Lemma logs_polls_until_unmounted_witness :
  let p := Timers.opened Scenario.logs_mounted in
  let q := LogsPolling.life Scenario.backend_url
             (Scenario.logs_are [Scenario.a_log]) 1 2 p in
  Timers.fresh_handles p
  /\ network (Timers.app q)
     = [GET "http://localhost:8001/api/sync/logs?limit=100";
        GET "http://localhost:8001/api/sync/logs?limit=100"]
  /\ Timers.timers q = [].
Proof.
  intros p q. split; [constructor |].
  apply (logs_polls_until_unmounted
           Scenario.backend_url (Scenario.logs_are [Scenario.a_log]) 1 2 p).
  constructor.
Defined.

Lemma handleSubmit_accepted_witness :
  let w := Scenario.form_filled Cases.saves_only in
  let typed := {| whmcs_url := VStr "https://billing.example.com";
                  whmcs_identifier := VStr "id-123";
                  whmcs_secret := VStr "s3cret";
                  freeagent_client_id := VStr "1KPjokVRmomFNRVgQgqgEw";
                  freeagent_client_secret := VStr "wzFQffiI6AkmY3zf9bHhJA" |} in
  (Settings.credentials (view w) = typed
   /\ is_rejected
        (Cases.saves_only (network w)
           (POST "http://localhost:8001/api/settings/credentials"
                 (Some typed))) = false
   /\ is_rejected
        (Cases.saves_only
           (network w
              ++ [POST "http://localhost:8001/api/settings/credentials"
                       (Some typed)])%list
           (GET "http://localhost:8001/api/settings/credentials")) = true)
  /\ exists w',
       Settings.handleSubmit Scenario.backend_url Cases.saves_only w
       = (Ok tt, w')
       /\ network w'
          = [GET "http://localhost:8001/api/settings/credentials";
             POST "http://localhost:8001/api/settings/credentials"
                  (Some typed);
             GET "http://localhost:8001/api/settings/credentials"]
       /\ Settings.alert (view w')
          = Some {| alert_type := "success";
                    alert_message := VStr "Credentials saved successfully!" |}
       /\ Settings.saving (view w') = false
       /\ Settings.loading (view w') = false.
Proof.
  intros w typed. split; [repeat split |].
  eapply (handleSubmit_accepted Scenario.backend_url Cases.saves_only w).
  reflexivity.
Defined.

Lemma handleSubmit_rejected_witness :
  let server := Cases.refuses "Invalid WHMCS URL" in
  let w := Scenario.form_filled server in
  let e := AxiosError
             (Some {| data := VObj [("detail", VStr "Invalid WHMCS URL")] |}) in
  let typed := {| whmcs_url := VStr "https://billing.example.com";
                  whmcs_identifier := VStr "id-123";
                  whmcs_secret := VStr "s3cret";
                  freeagent_client_id := VStr "1KPjokVRmomFNRVgQgqgEw";
                  freeagent_client_secret := VStr "wzFQffiI6AkmY3zf9bHhJA" |} in
  let p0 := {| Settings.banner := None;
               Settings.inputs := typed;
               Settings.save_disabled := false;
               Settings.save_label := "Save Credentials";
               Settings.connection :=
                 Settings.NotConnected false "Connect to FreeAgent" |} in
  let w' := exec (Settings.handleSubmit Scenario.backend_url server) w in
  (Settings.render (view w) = Settings.LoadedPage p0
   /\ server (network w)
        (POST (Settings.API Scenario.backend_url ++ "/settings/credentials")
              (Some (Settings.credentials (view w)))) = Rejected e)
  /\ Settings.render (view w')
     = Settings.LoadedPage
         {| Settings.banner :=
              Some {| alert_type := "error";
                      alert_message := VStr "Invalid WHMCS URL" |};
            Settings.inputs := typed;
            Settings.save_disabled := false;
            Settings.save_label := "Save Credentials";
            Settings.connection :=
              Settings.NotConnected false "Connect to FreeAgent" |}
  /\ network w'
     = [GET "http://localhost:8001/api/settings/credentials";
        POST "http://localhost:8001/api/settings/credentials" (Some typed)].
Proof.
  intros server w e typed p0 w'. split; [split; reflexivity |].
  destruct (handleSubmit_rejected Scenario.backend_url server w e p0
              eq_refl eq_refl) as (Hn & _ & Hy & _).
  split; [| exact Hn].
  apply (Hy "Invalid WHMCS URL"); [reflexivity | discriminate].
Defined.

Lemma handleSubmit_clears_secrets_witness :
  let w := Scenario.form_filled Scenario.leaky in
  let w' := exec (Settings.handleSubmit Scenario.backend_url Scenario.leaky)
                 w in
  whmcs_secret (Settings.credentials (view w)) = VStr "s3cret"
  /\ is_rejected
       (Scenario.leaky (network w)
          (POST (Settings.API Scenario.backend_url ++ "/settings/credentials")
                (Some (Settings.credentials (view w))))) = false
  /\ Settings.credentials (view w')
     = {| whmcs_url := VStr "https://billing.example.com";
          whmcs_identifier := VStr "";
          whmcs_secret := VStr "";
          freeagent_client_id := VStr "1KPjokVRmomFNRVgQgqgEw";
          freeagent_client_secret := VStr "" |}
  /\ Settings.isConnected (view w') = VBool true.
Proof.
  intros w w'. split; [reflexivity | split; [reflexivity |]].
  apply (handleSubmit_clears_secrets Scenario.backend_url Scenario.leaky w
           Cases.account Cases.account); reflexivity.
Defined.

Lemma handleConnect_redirects_witness :
  let w := Scenario.form_filled Scenario.nothing_stored in
  let w' := exec (Settings.handleConnectFreeAgent Scenario.backend_url
                    Cases.authorizes) w in
  is_rejected (Cases.authorizes (network w)
                 (Settings.authorize_request Scenario.backend_url)) = false
  /\ Settings.connect_enabled (view w) = true
  /\ Settings.href (view w')
     = Some (VStr "https://api.freeagent.com/v2/approve_app?client_id=1KPjokVRmomFNRVgQgqgEw")
  /\ Settings.connecting (view w') = true
  /\ Settings.connect_enabled (view w') = false
  /\ Settings.alert (view w') = None
  /\ network w'
     = [GET "http://localhost:8001/api/settings/credentials";
        GET "http://localhost:8001/api/oauth/freeagent/authorize"].
Proof.
  intros w w'. split; [reflexivity | split; [reflexivity |]].
  apply (handleConnect_redirects Scenario.backend_url Cases.authorizes w
           Cases.authorization); reflexivity.
Defined.

Lemma handleConnect_failure_witness :
  let server := Cases.refuses "FreeAgent client id is not configured" in
  let e := AxiosError
             (Some {| data := VObj [("detail",
                                     VStr "FreeAgent client id is not configured")] |}) in
  let w := Scenario.form_filled Scenario.nothing_stored in
  let p0 := {| Settings.banner := None;
               Settings.inputs := Settings.credentials (view w);
               Settings.save_disabled := false;
               Settings.save_label := "Save Credentials";
               Settings.connection :=
                 Settings.NotConnected false "Connect to FreeAgent" |} in
  let w' := exec (Settings.handleConnectFreeAgent Scenario.backend_url server)
                 w in
  (Settings.render (view w) = Settings.LoadedPage p0
   /\ server (network w) (Settings.authorize_request Scenario.backend_url)
      = Rejected e)
  /\ Settings.href (view w') = None
  /\ Settings.connecting (view w') = false
  /\ Settings.shown_banner (view w')
     = Some {| alert_type := "error";
               alert_message :=
                 VStr "FreeAgent client id is not configured" |}.
Proof.
  intros server e w p0 w'. split; [split; reflexivity |].
  apply (proj1 (handleConnect_failure Scenario.backend_url server w p0
                  eq_refl)
           e "FreeAgent client id is not configured");
    [reflexivity | reflexivity | discriminate].
Defined.

Lemma handleDisconnect_accepted_witness :
  let w := Cases.settings_connected in
  let w' := exec (Settings.handleDisconnectFreeAgent Scenario.backend_url
                    Scenario.nothing_stored true) w in
  (Settings.isConnected (view w) = VBool true
   /\ is_rejected
        (Scenario.nothing_stored (network w)
           (POST (Settings.API Scenario.backend_url
                    ++ "/oauth/freeagent/disconnect") None)) = false)
  /\ Settings.isConnected (view w') = VBool false
  /\ Settings.alert (view w')
     = Some {| alert_type := "success";
               alert_message :=
                 VStr "Disconnected from FreeAgent successfully" |}
  /\ Settings.credentials (view w') = Settings.credentials (view w)
  /\ (forall p, Settings.render (view w') = Settings.LoadedPage p ->
                exists disabled label,
                  Settings.connection p
                  = Settings.NotConnected disabled label).
Proof.
  intros w w'. split; [split; reflexivity |].
  eapply (handleDisconnect_accepted Scenario.backend_url
            Scenario.nothing_stored w).
  reflexivity.
Defined.

Lemma handleDisconnect_rejected_witness :
  let server := Cases.refuses "No active FreeAgent connection" in
  let e := AxiosError
             (Some {| data := VObj [("detail",
                                     VStr "No active FreeAgent connection")] |}) in
  let w := Cases.settings_connected in
  let p0 := {| Settings.banner := None;
               Settings.inputs := Settings.credentials (view w);
               Settings.save_disabled := false;
               Settings.save_label := "Save Credentials";
               Settings.connection :=
                 Settings.Connected false "Disconnect from FreeAgent" |} in
  let w' := exec (Settings.handleDisconnectFreeAgent Scenario.backend_url
                    server true) w in
  (Settings.render (view w) = Settings.LoadedPage p0
   /\ server (network w)
        (POST (Settings.API Scenario.backend_url
                 ++ "/oauth/freeagent/disconnect") None) = Rejected e)
  /\ Settings.isConnected (view w') = VBool true
  /\ Settings.render (view w')
     = Settings.LoadedPage
         {| Settings.banner :=
              Some {| alert_type := "error";
                      alert_message :=
                        VStr "No active FreeAgent connection" |};
            Settings.inputs := Settings.credentials (view w);
            Settings.save_disabled := false;
            Settings.save_label := "Save Credentials";
            Settings.connection :=
              Settings.Connected false "Disconnect from FreeAgent" |}.
Proof.
  intros server e w p0 w'. split; [split; reflexivity |].
  destruct (handleDisconnect_rejected Scenario.backend_url server w e p0
              false "Disconnect from FreeAgent" eq_refl eq_refl eq_refl)
    as (Hc & _ & Hy & _).
  split; [exact Hc |].
  apply (Hy "No active FreeAgent connection"); [reflexivity | discriminate].
Defined.

Lemma oauth_other_values_ignored_witness :
  let addr := "/settings?oauth=pending&message=Hold%20on" in
  let sp := [("oauth", "pending"); ("message", "Hold on")] in
  let w' := Settings.visit Scenario.backend_url Scenario.leaky addr sp [] in
  (Settings.searchParams_get sp "oauth" <> Some "success"
   /\ Settings.searchParams_get sp "oauth" <> Some "error")
  /\ Settings.shown_banner (view w') = None
  /\ Settings.alert (view w') = None
  /\ Settings.address (view w') = addr.
Proof.
  intros addr sp w'. split; [split; discriminate |].
  apply (oauth_other_values_ignored Scenario.backend_url Scenario.leaky
           addr sp []); discriminate.
Defined.

Lemma oauth_error_cleans_address_witness :
  let addr := "/settings?oauth=error&message=Access%20denied" in
  let sp := [("oauth", "error"); ("message", "Access denied")] in
  let w' := Settings.visit Scenario.backend_url Scenario.leaky addr sp [] in
  Settings.searchParams_get sp "oauth" = Some "error"
  /\ Settings.address (view w') = "/settings"
  /\ Settings.query_of (Settings.address (view w')) = None
  /\ Settings.parameters_of (Settings.address (view w')) []
  /\ Settings.shown_banner
       (view (Settings.refresh Scenario.backend_url Scenario.leaky [] w'))
     = None.
Proof.
  intros addr sp w'. split; [reflexivity |].
  destruct (oauth_error_cleans_address Scenario.backend_url Scenario.leaky
              addr sp [] eq_refl) as (Ha & Hq & Hr).
  assert (Hp : Settings.parameters_of (Settings.address (view w')) [])
    by (apply Settings.no_query; exact Hq).
  split; [exact Ha | split; [exact Hq |]].
  split; [exact Hp | exact (Hr [] Hp)].
Defined.

Lemma visit_load_failure_shows_blank_form_witness :
  let w' := Settings.visit Scenario.backend_url Cases.unreachable
              "/settings" [] [] in
  (Settings.searchParams_get [] "oauth" = None
   /\ Cases.unreachable (D := value) []
        (Settings.credentials_request Scenario.backend_url)
      = Rejected (AxiosError None))
  /\ Settings.render (view w')
     = Settings.LoadedPage
         {| Settings.banner := None;
            Settings.inputs := Settings.blank;
            Settings.save_disabled := false;
            Settings.save_label := "Save Credentials";
            Settings.connection :=
              Settings.NotConnected true "Connect to FreeAgent" |}
  /\ console w' = [("Error fetching credentials:", AxiosError None)].
Proof.
  intros w'. split; [split; reflexivity |].
  apply (visit_load_failure_shows_blank_form
           Scenario.backend_url Cases.unreachable "/settings" [] []
           (AxiosError None)); reflexivity.
Defined.

Lemma connection_panel_follows_server_witness :
  let w := Scenario.form_filled Scenario.nothing_stored in
  (Settings.isConnected (view w) = VBool false
   /\ is_rejected (Scenario.leaky (network w)
                     (Settings.credentials_request Scenario.backend_url))
      = false)
  /\ exists p,
       Settings.render
         (view (exec (Settings.fetchCredentials Scenario.backend_url
                        Scenario.leaky) w))
       = Settings.LoadedPage p
       /\ Settings.connection p
          = Settings.Connected false "Disconnect from FreeAgent".
Proof.
  intros w. split; [split; reflexivity |].
  apply (connection_panel_follows_server Scenario.backend_url
           Scenario.leaky w Cases.account); reflexivity.
Defined.
